(** * spconv build manifest (setup.py): embedding and verified properties

    The manifest is a Python script executed top to bottom.  It is embedded
    as a computation in a state-and-exception monad: the state is the
    interpreter's object heap (pccm units and extensions are objects that
    are referred to, shared and mutated through references) together with
    the files the script has written; the environment supplies the process
    environment variables and the outcome of each file operation.

    Python [str] values are sequences of Unicode code points. *)

From Stdlib Require Import ZArith NArith Lia List String Ascii Permutation.
From stdpp Require Import base option list strings gmap relations.

Local Open Scope N_scope.

(** ** Python strings *)

Definition char := N.
Definition str := list char.

(** A source literal (all literals of the manifest are ASCII). *)
Definition py (s : string) : str :=
  List.map N_of_ascii (list_ascii_of_string s).

(** [s.replace(old, new)] for a one-character [old]. *)
Definition replace (old : char) (new : str) (s : str) : str :=
  flat_map (fun c => if c =? old then new else [c]) s.

(** [s.split(sep)] for a one-character [sep]: never returns an empty list. *)
Fixpoint split (sep : char) (s : str) : list str :=
  match s with
  | [] => [[]]
  | c :: s' =>
      if c =? sep then [] :: split sep s'
      else match split sep s' with
           | w :: ws => (c :: w) :: ws
           | [] => [[c]]
           end
  end.

(** [str.isspace] for one code point (CPython's [_PyUnicode_IsWhitespace]). *)
Definition Py_UNICODE_ISSPACE (c : char) : bool :=
  ((9 <=? c) && (c <=? 13)) || ((28 <=? c) && (c <=? 32))
  || (c =? 133) || (c =? 160) || (c =? 5760)
  || ((8192 <=? c) && (c <=? 8202))
  || (c =? 8232) || (c =? 8233) || (c =? 8239) || (c =? 8287) || (c =? 12288).

Fixpoint lstrip (sp : char -> bool) (s : str) : str :=
  match s with
  | c :: s' => if sp c then lstrip sp s' else s
  | [] => []
  end.

(** [s.strip()] *)
Definition strip (s : str) : str :=
  rev (lstrip Py_UNICODE_ISSPACE (rev (lstrip Py_UNICODE_ISSPACE s))).

(** ** [int(s)] on a string, base 10

    Two facts about the interpreter are not part of the manifest and are
    taken as parameters: the decimal value the Unicode database gives to a
    non-ASCII code point, and the limit on the number of digits of an
    integer literal ([sys.get_int_max_str_digits()], 0 meaning no limit). *)

Section PyInt.
Variable Py_UNICODE_TODECIMAL : char -> option N.
Variable int_max_str_digits : N.

(** The C-level whitespace test used by the integer parser. *)
Definition Py_ISSPACE (c : char) : bool :=
  ((9 <=? c) && (c <=? 13)) || (c =? 32).

Definition digit_value (c : char) : option Z :=
  if (48 <=? c) && (c <=? 57) then Some (Z.of_N (c - 48)) else None.

(** Non-ASCII spaces become a blank, non-ASCII decimal digits their
    ASCII digit, any other non-ASCII code point a question mark. *)
Definition to_ascii (c : char) : char :=
  if c <? 127 then c
  else if Py_UNICODE_ISSPACE c then 32
  else match Py_UNICODE_TODECIMAL c with
       | Some d => if d <? 10 then 48 + d else 63
       | None => 63
       end.

(** Digits with single underscores between them; returns the value, the
    number of digits and the unread rest. *)
Fixpoint scan_digits (prev_us : bool) (acc : Z) (ndigits : N) (s : str)
  : option (Z * N * str) :=
  match s with
  | c :: s' =>
      if c =? 95 then
        if prev_us then None else scan_digits true acc ndigits s'
      else match digit_value c with
           | Some d => scan_digits false (10 * acc + d)%Z (ndigits + 1) s'
           | None => if prev_us then None else Some (acc, ndigits, s)
           end
  | [] => if prev_us then None else Some (acc, ndigits, [])
  end.

Definition parse_unsigned (s : str) : option Z :=
  match s with
  | 95 :: _ => None
  | _ =>
      match scan_digits false 0%Z 0 s with
      | Some (v, n, rest) =>
          if n =? 0 then None
          else if (0 <? int_max_str_digits) && (int_max_str_digits <? n)
          then None
          else if forallb Py_ISSPACE rest then Some v else None
      | None => None
      end
  end.

(** [int(s)]: [None] stands for the [ValueError] that [int] raises. *)
Definition int (s : str) : option Z :=
  match lstrip Py_ISSPACE (List.map to_ascii s) with
  | 43 :: t => parse_unsigned t
  | 45 :: t => option_map Z.opp (parse_unsigned t)
  | t => parse_unsigned t
  end.
End PyInt.

(** ** Exceptions, environment and state *)

Inductive exn :=
| RuntimeError (msg : string)
| ValueError (literal : str)
| IndexError
| FileNotFoundError
| PermissionError
| IsADirectoryError
| UnicodeDecodeError.

(** A path below [here], the directory of the manifest. *)
Definition path := list str.

(** What the process is given: its environment variables, and what each
    file operation of the script yields when it is executed.  A read
    yields the decoded text of the file or the exception raised by
    [open]/[read]; the write of the version module yields [None] when it
    succeeds. *)
Record Env := {
  environ : gmap string str;
  README_md : exn + str;
  version_txt : exn + str;
  version_py_write : option exn;
  find_packages : list str
}.

(** [os.environ.get(key, default)] *)
Definition environ_get (env : Env) (key : string) (dflt : str) : str :=
  default dflt (environ env !! key).

Definition ref := nat.

Record PCCMExtension := {
  ext_units : list ref;
  ext_name : str;
  ext_out_dir : path;
  ext_std : str;
  ext_disable_pch : bool;
  ext_verbose : bool
}.

Inductive build_command := PCCMBuild.

(** The keyword arguments of the final [setup(...)] call. *)
Record SetupCall := {
  name : str;
  version : str;
  description : str;
  long_description : str;
  long_description_content_type : str;
  author : str;
  author_email : str;
  python_requires : str;
  url : str;
  packages : list str;
  install_requires : list str;
  extras_require : list (str * list str);
  include_package_data : bool;
  license : str;
  classifiers : list str;
  cmdclass : list (str * build_command);
  ext_modules : list ref
}.

(** Pure steps that may raise. *)
Definition result (A : Type) : Type := exn + A.

Definition rbind {A B} (r : result A) (k : A -> result B) : result B :=
  match r with
  | inl e => inl e
  | inr a => k a
  end.

(** [tuple(map(f, l))], left to right, stopping at the first exception. *)
Fixpoint map_result {A B} (f : A -> result B) (l : list A) : result (list B) :=
  match l with
  | [] => inr []
  | a :: l' =>
      rbind (f a) (fun b => rbind (map_result f l') (fun bs => inr (b :: bs)))
  end.

(** ** The composition engine

    The manifest hands its units to pccm, which is not part of this
    repository's sources; the engine below follows the specification. *)

Module Composition.

(** Modelled from the spec: the Unit record of the composition engine
    (pccm, absent from the sources): a namespace, the set of provided
    operation names, the set of references to the units it depends on and
    an opaque generated source.  [uref] is the identity of the unit. *)
Record Unit := {
  uref : ref;
  namespace : str;
  provided_symbols : gset str;
  dependencies : gset ref;
  generated_source : str
}.

Inductive ConfigurationError :=
| DuplicateSymbolError
| CyclicDependencyError.

(** Modelled from the spec: the CompositionGraph (absent from the
    sources) owns the registered units, kept in registration order. *)
Definition CompositionGraph := list Unit.

(** Modelled from the spec: two units declare a common (namespace,
    symbol) pair, the duplicate that the absent engine refuses. *)
Definition collide (u v : Unit) : Prop :=
  namespace u = namespace v
  /\ exists s, s ∈ provided_symbols u /\ s ∈ provided_symbols v.

Definition collideb (u v : Unit) : bool :=
  bool_decide (namespace u = namespace v)
  && negb (bool_decide (provided_symbols u ∩ provided_symbols v = ∅)).

(** Modelled from the spec: [register(unit)] of the absent engine: adds
    the unit, or fails with DuplicateSymbolError when one of its
    (namespace, symbol) pairs is already present. *)
Definition register (u : Unit) (g : CompositionGraph)
  : ConfigurationError + CompositionGraph :=
  if existsb (collideb u) g then inl DuplicateSymbolError
  else inr (g ++ [u]).

Fixpoint register_all (us : list Unit) (g : CompositionGraph)
  : ConfigurationError + CompositionGraph :=
  match us with
  | [] => inr g
  | u :: us' =>
      match register u g with
      | inl e => inl e
      | inr g' => register_all us' g'
      end
  end.

(** Modelled from the spec: a dependency edge of the absent engine: the
    unit [u] declares a dependency on the unit [v]. *)
Definition depends_on (u v : Unit) : bool :=
  bool_decide (uref v ∈ dependencies u).

(** Modelled from the spec: a unit can be built next when none of the
    units still pending is one it depends on; a dependency on a unit that
    is not registered is no edge of the graph and holds nothing up. *)
Definition ready (pending : list Unit) (u : Unit) : bool :=
  forallb (fun v => negb (depends_on u v)) pending.

(** Modelled from the spec: one step of the absent engine's topological
    sort: the first pending unit accepted by [ok], and the other pending
    units in their order. *)
Fixpoint pick (ok : Unit -> bool) (pending : list Unit)
  : option (Unit * list Unit) :=
  match pending with
  | [] => None
  | u :: rest =>
      if ok u then Some (u, rest)
      else match pick ok rest with
           | Some (v, rest') => Some (v, u :: rest')
           | None => None
           end
  end.

(** Modelled from the spec: the loop of the absent engine's topological
    sort; it is run with one unit of fuel for each registered unit. *)
Fixpoint resolve_from (fuel : nat) (pending : list Unit)
  : ConfigurationError + list Unit :=
  match pending, fuel with
  | [], _ => inr []
  | _ :: _, O => inl CyclicDependencyError
  | _ :: _, S fuel' =>
      match pick (ready pending) pending with
      | None => inl CyclicDependencyError
      | Some (u, rest) =>
          match resolve_from fuel' rest with
          | inl e => inl e
          | inr order => inr (u :: order)
          end
      end
  end.

(** Modelled from the spec: [resolve()] of the absent engine: a
    topological sort of the registered units along their dependency
    edges, failing with CyclicDependencyError when the units left all wait
    for one another. *)
Definition resolve (g : CompositionGraph)
  : ConfigurationError + list Unit :=
  resolve_from (length g) g.

(** Modelled from the spec: the invariants of the data model of the absent
    engine and the property of a build order. *)

Definition no_duplicate_pairs (g : CompositionGraph) : Prop :=
  forall i j u v, g !! i = Some u -> g !! j = Some v -> i <> j -> ~ collide u v.





End Composition.

Section Manifest.
(** Imported from modules that are not part of the manifest: the element
    types of the parameter lists and the eight per-tier lists of
    [spconv.core]. *)
Context {GemmAlgoParams ConvAlgoParams : Type}.
Variables SHUFFLE_SIMT_PARAMS SHUFFLE_VOLTA_PARAMS
          SHUFFLE_TURING_PARAMS SHUFFLE_AMPERE_PARAMS : list GemmAlgoParams.
Variables IMPLGEMM_SIMT_PARAMS IMPLGEMM_VOLTA_PARAMS
          IMPLGEMM_TURING_PARAMS IMPLGEMM_AMPERE_PARAMS : list ConvAlgoParams.
Variable Py_UNICODE_TODECIMAL : char -> option N.
Variable int_max_str_digits : N.

(** The classes instantiated by the manifest, with their constructor
    arguments; a unit passed to a constructor is passed by reference. *)
Inductive class :=
| GemmMainUnitTest (params : list GemmAlgoParams)
| ConvMainUnitTest (params : list ConvAlgoParams)
| GemmTunerSimple (cu : ref)
| ConvTunerSimple (convcu : ref)
| ConvGemmOps (gemmtuner convtuner : ref)
| SpconvOps
| BoxOps
| HashTable
| CompileInfo
| ExternalAllocator
| PointCloudCompress
| ExternalSpconvMatmul
| InferenceOps.

(** [namespace] is [None] until the manifest assigns it. *)
Inductive obj :=
| Unit (cls : class) (namespace : option str)
| Extension (ext : PCCMExtension).

Record World := {
  heap : list obj;
  written : list (path * str)
}.

Definition M (A : Type) : Type := World -> result A * World.

Definition ret {A} (a : A) : M A := fun w => (inr a, w).

Definition bind {A B} (m : M A) (k : A -> M B) : M B :=
  fun w =>
    match m w with
    | (inl e, w') => (inl e, w')
    | (inr a, w') => k a w'
    end.

Definition lift {A} (r : result A) : M A := fun w => (r, w).

(** [try: body  except <class>: handler] *)
Definition try_except {A} (body : M A) (catches : exn -> bool)
    (handler : M A) : M A :=
  fun w =>
    match body w with
    | (inl e, w') => if catches e then handler w' else (inl e, w')
    | (inr a, w') => (inr a, w')
    end.

Notation "'let*' x ':=' m 'in' k" := (bind m (fun x => k))
  (at level 10, x name, m at level 100, k at level 200).

(** Calling a class: the new object is appended to the heap.  The classes
    are imported from packages that are not part of the manifest; their
    constructors are taken to return, so that what is proved of a run that
    goes on after a call holds on that assumption. *)
Definition new (o : obj) : M ref :=
  fun w => (inr (length (heap w)),
            {| heap := heap w ++ [o]; written := written w |}).

Definition set_namespace (ns : str) (o : obj) : obj :=
  match o with
  | Unit c _ => Unit c (Some ns)
  | Extension e => Extension e
  end.

(** [r.namespace = ns] *)
Definition assign_namespace (r : ref) (ns : str) : M unit :=
  fun w => (inr tt,
            {| heap := alter (set_namespace ns) r (heap w);
               written := written w |}).

Definition read_file (outcome : exn + str) : M str := lift outcome.

Definition write_file (outcome : option exn) (p : path) (text : str)
  : M unit :=
  fun w =>
    match outcome with
    | Some e => (inl e, w)
    | None => (inr tt, {| heap := heap w; written := written w ++ [(p, text)] |})
    end.

Definition is_FileNotFoundError (e : exn) : bool :=
  match e with FileNotFoundError => true | _ => false end.

(** *** The manifest, block by block *)

Definition NAME : str := py "spconv".
Definition DESCRIPTION : str := py "spatial sparse convolution".
Definition URL : str := py "https://github.com/traveller59/spconv".
Definition EMAIL : str := py "yanyan.sub@outlook.com".
Definition AUTHOR : str := py "Yan Yan".
Definition REQUIRES_PYTHON : str := py ">=3.9".

(** Lines 21-32: [(RELEASE_NAME, deps)]. *)
Definition release (CUMM_CUDA_VERSION : str) : result (str * list str) :=
  let RELEASE_NAME := NAME in
  let deps := [py "cumm"] in
  match CUMM_CUDA_VERSION with
  | _ :: _ =>
      let cuda_ver_str := replace 46 [] CUMM_CUDA_VERSION in
      inr (RELEASE_NAME ++ py "-cu" ++ cuda_ver_str,
           [py "cumm-cu" ++ cuda_ver_str ++ py ">=0.7.11, <1.0.0"])
  | [] =>
      inl (RuntimeError
             "CUMM_CUDA_VERSION must be set. e.g. export CUMM_CUDA_VERSION=11.8")
  end.

(** Lines 41-48. *)
Definition REQUIRED (deps : list str) : list str :=
  [py "pccm>=0.4.16"; py "ccimport>=0.4.4"; py "pybind11>=2.6.0";
   py "fire"; py "numpy<2.0.0"] ++ deps.

(** Lines 55-59. *)
Definition read_long_description (env : Env) : M str :=
  try_except
    (let* f := read_file (README_md env) in ret (10 :: f))
    is_FileNotFoundError
    (ret DESCRIPTION).

(** Lines 62-69. *)
Definition read_version (env : Env) : M str :=
  let* f := read_file (version_txt env) in
  let version := strip f in
  let version_path := [NAME; py "__version__.py"] in
  let* _ := write_file (version_py_write env) version_path
              (py "__version__ = '" ++ version ++ py "'" ++ [10]) in
  ret version.

(** Lines 105-108. *)
Definition int_or_raise (s : str) : result Z :=
  match int Py_UNICODE_TODECIMAL int_max_str_digits s with
  | Some z => inr z
  | None => inl (ValueError s)
  end.

Definition choose_std (CUMM_CUDA_VERSION : str) : result str :=
  let std := py "c++17" in
  rbind (map_result int_or_raise (split 46 CUMM_CUDA_VERSION))
    (fun cuda_ver_tuple =>
       match cuda_ver_tuple with
       | major :: _ => if (major <? 11)%Z then inr (py "c++14") else inr std
       | [] => inl IndexError
       end).

Definition classifiers_list : list str :=
  [py "License :: OSI Approved :: Apache Software License";
   py "Programming Language :: Python";
   py "Programming Language :: Python :: 3";
   py "Programming Language :: Python :: 3.9";
   py "Programming Language :: Python :: 3.10";
   py "Programming Language :: Python :: 3.11";
   py "Programming Language :: Python :: 3.12";
   py "Programming Language :: Python :: 3.13";
   py "Programming Language :: Python :: Implementation :: CPython"].

(** The whole script, in statement order. *)
Definition setup_py (env : Env) : M SetupCall :=
  let CUMM_CUDA_VERSION := environ_get env "CUMM_CUDA_VERSION" [] in
  let* release_deps := lift (release CUMM_CUDA_VERSION) in
  let RELEASE_NAME := fst release_deps in
  let deps := snd release_deps in
  let EXTRAS := [] in
  let* long_description := read_long_description env in
  let* version := read_version env in
  let cmdclass := [(py "build_ext", PCCMBuild)] in
  let all_shuffle := SHUFFLE_SIMT_PARAMS ++ SHUFFLE_VOLTA_PARAMS
                     ++ SHUFFLE_TURING_PARAMS ++ SHUFFLE_AMPERE_PARAMS in
  let all_imp := IMPLGEMM_SIMT_PARAMS ++ IMPLGEMM_VOLTA_PARAMS
                 ++ IMPLGEMM_TURING_PARAMS ++ IMPLGEMM_AMPERE_PARAMS in
  let* cu := new (Unit (GemmMainUnitTest all_shuffle) None) in
  let* _ := assign_namespace cu (py "cumm.gemm.main") in
  let* convcu := new (Unit (ConvMainUnitTest all_imp) None) in
  let* _ := assign_namespace convcu (py "cumm.conv.main") in
  let* std := lift (choose_std CUMM_CUDA_VERSION) in
  let* gemmtuner := new (Unit (GemmTunerSimple cu) None) in
  let* _ := assign_namespace gemmtuner (py "csrc.sparse.convops.gemmops") in
  let* convtuner := new (Unit (ConvTunerSimple convcu) None) in
  let* _ := assign_namespace convtuner (py "csrc.sparse.convops.convops") in
  let* convops := new (Unit (ConvGemmOps gemmtuner convtuner) None) in
  let* _ := assign_namespace convops (py "csrc.sparse.convops.spops") in
  let* u4 := new (Unit SpconvOps None) in
  let* u5 := new (Unit BoxOps None) in
  let* u6 := new (Unit HashTable None) in
  let* u7 := new (Unit CompileInfo None) in
  let* u8 := new (Unit ExternalAllocator None) in
  let* u9 := new (Unit PointCloudCompress None) in
  let* u10 := new (Unit ExternalSpconvMatmul None) in
  let* u11 := new (Unit InferenceOps None) in
  let cus := [gemmtuner; convtuner; convops; u4; u5; u6; u7; u8; u9; u10; u11] in
  let cus := cus ++ [cu; convcu] in
  let* ext := new (Extension
                     {| ext_units := cus;
                        ext_name := py "spconv/core_cc";
                        ext_out_dir := [py "spconv"];
                        ext_std := std;
                        ext_disable_pch := true;
                        ext_verbose := true |}) in
  let ext_modules := [ext] in
  ret {| name := RELEASE_NAME;
         version := version;
         description := DESCRIPTION;
         long_description := long_description;
         long_description_content_type := py "text/markdown";
         author := AUTHOR;
         author_email := EMAIL;
         python_requires := REQUIRES_PYTHON;
         url := URL;
         packages := find_packages env;
         install_requires := REQUIRED deps;
         extras_require := EXTRAS;
         include_package_data := true;
         license := py "Apache License 2.0";
         classifiers := classifiers_list;
         cmdclass := cmdclass;
         ext_modules := ext_modules |}.

Definition empty_world : World := {| heap := []; written := [] |}.

(** Running the script in a fresh interpreter. *)
Definition run (env : Env) : result SetupCall * World :=
  setup_py env empty_world.

(** *** From the heap of the manifest to the composition graph *)

(** What the absent code generators make of an instance of each class:
    its default namespace (used when the manifest assigns none), its
    operation names and its generated source. *)
Variable default_namespace : class -> str.
Variable provided : class -> gset str.
Variable source_of : class -> str.

(** The units an instance refers to are the ones it was constructed
    from. *)
Definition class_dependencies (c : class) : gset ref :=
  match c with
  | GemmTunerSimple cu => {[cu]}
  | ConvTunerSimple convcu => {[convcu]}
  | ConvGemmOps gemmtuner convtuner => {[gemmtuner; convtuner]}
  | _ => ∅
  end.

(** Modelled from the spec: the Unit that the absent engine sees for the
    object at reference [r]. *)
Definition unit_at (w : World) (r : ref) : option Composition.Unit :=
  match heap w !! r with
  | Some (Unit c ns) =>
      Some {| Composition.uref := r;
              Composition.namespace := default (default_namespace c) ns;
              Composition.provided_symbols := provided c;
              Composition.dependencies := class_dependencies c;
              Composition.generated_source := source_of c |}
  | _ => None
  end.

(** The units handed to the extension at reference [e], in list order. *)
Definition extension_units (w : World) (e : ref)
  : option (list Composition.Unit) :=
  match heap w !! e with
  | Some (Extension x) => mapM (unit_at w) (ext_units x)
  | _ => None
  end.



(** *** Reading the final state *)

Definition is_unit (o : obj) : bool :=
  match o with Unit _ _ => true | Extension _ => false end.

Definition is_extension (o : obj) : bool :=
  match o with Unit _ _ => false | Extension _ => true end.

Definition namespace_at (w : World) (r : ref) : option str :=
  match heap w !! r with
  | Some (Unit _ ns) => ns
  | _ => None
  end.

Definition class_at (w : World) (r : ref) : option class :=
  match heap w !! r with
  | Some (Unit c _) => Some c
  | _ => None
  end.

(** The enclosing scope of a dotted namespace: all components but the
    last. *)
Definition scope_of (ns : str) : list str := removelast (split 46 ns).

(** The statement of the specification for the release name: the dots of
    the version are dropped. *)
Definition without_dots (v : str) : str :=
  List.filter (fun c => negb (c =? 46)) v.

(** The state in which every successful run ends, for the C++ standard
    [std] chosen from the CUDA version. *)
Definition built_heap (std : str) : list obj :=
  [Unit (GemmMainUnitTest (SHUFFLE_SIMT_PARAMS ++ SHUFFLE_VOLTA_PARAMS
                           ++ SHUFFLE_TURING_PARAMS ++ SHUFFLE_AMPERE_PARAMS))
     (Some (py "cumm.gemm.main"));
   Unit (ConvMainUnitTest (IMPLGEMM_SIMT_PARAMS ++ IMPLGEMM_VOLTA_PARAMS
                           ++ IMPLGEMM_TURING_PARAMS ++ IMPLGEMM_AMPERE_PARAMS))
     (Some (py "cumm.conv.main"));
   Unit (GemmTunerSimple 0%nat) (Some (py "csrc.sparse.convops.gemmops"));
   Unit (ConvTunerSimple 1%nat) (Some (py "csrc.sparse.convops.convops"));
   Unit (ConvGemmOps 2%nat 3%nat) (Some (py "csrc.sparse.convops.spops"));
   Unit SpconvOps None; Unit BoxOps None; Unit HashTable None;
   Unit CompileInfo None; Unit ExternalAllocator None;
   Unit PointCloudCompress None; Unit ExternalSpconvMatmul None;
   Unit InferenceOps None;
   Extension {| ext_units := [2; 3; 4; 5; 6; 7; 8; 9; 10; 11; 12; 0; 1]%nat;
                ext_name := py "spconv/core_cc";
                ext_out_dir := [py "spconv"];
                ext_std := std;
                ext_disable_pch := true;
                ext_verbose := true |}].

(** The state at line 106, where the version is parsed. *)
Definition kernel_heap : list obj := take 2 (built_heap []).

(** The file operations before line 94 all go through. *)
Definition files_ok (env : Env) : Prop :=
  (README_md env = inl FileNotFoundError \/ exists c, README_md env = inr c)
  /\ (exists ver, version_txt env = inr ver)
  /\ version_py_write env = None.

Definition with_README (env : Env) (outcome : exn + str) : Env :=
  {| environ := environ env;
     README_md := outcome;
     version_txt := version_txt env;
     version_py_write := version_py_write env;
     find_packages := find_packages env |}.

Definition with_long_description (call : SetupCall) (d : str) : SetupCall :=
  {| name := name call;
     version := version call;
     description := description call;
     long_description := d;
     long_description_content_type := long_description_content_type call;
     author := author call;
     author_email := author_email call;
     python_requires := python_requires call;
     url := url call;
     packages := packages call;
     install_requires := install_requires call;
     extras_require := extras_require call;
     include_package_data := include_package_data call;
     license := license call;
     classifiers := classifiers call;
     cmdclass := cmdclass call;
     ext_modules := ext_modules call |}.

(** Two units that depend on each other. *)
Definition unit_P : Composition.Unit :=
  {| Composition.uref := 3%nat;
     Composition.namespace := py "ns.p";
     Composition.provided_symbols := ∅;
     Composition.dependencies := {[ 4%nat ]};
     Composition.generated_source := [] |}.

Definition unit_Q : Composition.Unit :=
  {| Composition.uref := 4%nat;
     Composition.namespace := py "ns.q";
     Composition.provided_symbols := ∅;
     Composition.dependencies := {[ 3%nat ]};
     Composition.generated_source := [] |}.

(** *** Plain decimal notation *)

(** An ASCII decimal digit. *)
Definition is_digit (c : char) : bool := (48 <=? c) && (c <=? 57).

(** The number that a string of ASCII digits denotes. *)
Definition decimal_value (s : str) : Z :=
  fold_left (fun acc c => (10 * acc + Z.of_N (c - 48))%Z) s 0%Z.

(** A non-empty group of ASCII digits, within the digit limit of the
    interpreter. *)
Definition digit_group (s : str) : Prop :=
  s <> [] /\ forallb is_digit s = true
  /\ (int_max_str_digits = 0 \/ N.of_nat (length s) <= int_max_str_digits).

(** *** Sample inputs *)

(** An interpreter whose only decimal digits are the ASCII ones. *)
Definition ascii_digits_only : char -> option N := fun _ => None.

(** CUDA 11.8, no README.md, version.txt holding one line. *)
Definition sample_env : Env :=
  {| environ := {[ "CUMM_CUDA_VERSION"%string := py "11.8" ]};
     README_md := inl FileNotFoundError;
     version_txt := inr (py "2.3.6" ++ [10]);
     version_py_write := None;
     find_packages := [py "spconv"] |}.

(** CUDA 10.2 and a README.md. *)
Definition sample_env_cuda10 : Env :=
  {| environ := {[ "CUMM_CUDA_VERSION"%string := py "10.2" ]};
     README_md := inr (py "# spconv");
     version_txt := inr (py "2.3.6" ++ [10]);
     version_py_write := None;
     find_packages := [py "spconv"] |}.

(** CUMM_CUDA_VERSION is not set. *)
Definition sample_env_unset : Env :=
  {| environ := ∅;
     README_md := inr (py "# spconv");
     version_txt := inr (py "2.3.6" ++ [10]);
     version_py_write := None;
     find_packages := [py "spconv"] |}.

(** A version whose second component is not a number. *)
Definition sample_env_bad_version : Env :=
  {| environ := {[ "CUMM_CUDA_VERSION"%string := py "11.x" ]};
     README_md := inl FileNotFoundError;
     version_txt := inr (py "2.3.6" ++ [10]);
     version_py_write := None;
     find_packages := [py "spconv"] |}.

(** The same version, but version.txt is missing. *)
Definition sample_env_no_version_txt : Env :=
  {| environ := {[ "CUMM_CUDA_VERSION"%string := py "11.x" ]};
     README_md := inl FileNotFoundError;
     version_txt := inl FileNotFoundError;
     version_py_write := None;
     find_packages := [py "spconv"] |}.

(** README.md exists but may not be read. *)
Definition sample_env_unreadable_README : Env :=
  {| environ := {[ "CUMM_CUDA_VERSION"%string := py "11.8" ]};
     README_md := inl PermissionError;
     version_txt := inr (py "2.3.6" ++ [10]);
     version_py_write := None;
     find_packages := [py "spconv"] |}.

(** The package directory is not writable. *)
Definition sample_env_read_only : Env :=
  {| environ := {[ "CUMM_CUDA_VERSION"%string := py "11.8" ]};
     README_md := inl FileNotFoundError;
     version_txt := inr (py "2.3.6" ++ [10]);
     version_py_write := Some PermissionError;
     find_packages := [py "spconv"] |}.

(** version.txt holds a blank and a newline only. *)
Definition sample_env_blank_version : Env :=
  {| environ := {[ "CUMM_CUDA_VERSION"%string := py "11.8" ]};
     README_md := inl FileNotFoundError;
     version_txt := inr (py " " ++ [10]);
     version_py_write := None;
     find_packages := [py "spconv"] |}.

(** The units of the example of the specification: B depends on A, and C
    declares the pair of A again. *)
Definition unit_A : Composition.Unit :=
  {| Composition.uref := 0%nat;
     Composition.namespace := py "ns.a";
     Composition.provided_symbols := {[ py "foo" ]};
     Composition.dependencies := ∅;
     Composition.generated_source := [] |}.

Definition unit_B : Composition.Unit :=
  {| Composition.uref := 1%nat;
     Composition.namespace := py "ns.b";
     Composition.provided_symbols := {[ py "bar" ]};
     Composition.dependencies := {[ 0%nat ]};
     Composition.generated_source := [] |}.

Definition unit_C : Composition.Unit :=
  {| Composition.uref := 2%nat;
     Composition.namespace := py "ns.a";
     Composition.provided_symbols := {[ py "foo" ]};
     Composition.dependencies := ∅;
     Composition.generated_source := [] |}.

(** Case analysis on a reference into the final heap. *)
Ltac ref_cases n r :=
  lazymatch n with
  | O => idtac
  | S ?m => let r' := fresh "r" in destruct r as [| r']; [| ref_cases m r']
  end.

Ltac heap_cases r := ref_cases 14%nat r; cbn; try done.

(** Membership in an explicit list. *)
Ltac in_list := repeat (apply list_elem_of_here || apply list_elem_of_further).

Abbreviation all_shuffle :=
  (SHUFFLE_SIMT_PARAMS ++ SHUFFLE_VOLTA_PARAMS
   ++ SHUFFLE_TURING_PARAMS ++ SHUFFLE_AMPERE_PARAMS).
Abbreviation all_imp :=
  (IMPLGEMM_SIMT_PARAMS ++ IMPLGEMM_VOLTA_PARAMS
   ++ IMPLGEMM_TURING_PARAMS ++ IMPLGEMM_AMPERE_PARAMS).

(** ** Properties *)

(** *** The composition engine *)

Section Engine.
Import Composition.












Lemma collideb_spec u v : collideb u v = true <-> collide u v.
Proof using Type.
unfold collideb, collide.
rewrite andb_true_iff, bool_decide_eq_true, negb_true_iff,
  bool_decide_eq_false.
split; intros [Hns Hsym]; (split; [done |]).
- apply set_choose_L in Hsym as [s Hs].
  apply elem_of_intersection in Hs. by exists s.
- destruct Hsym as (s & Hu & Hv). intros Hempty.
  assert (Hs : s ∈ provided_symbols u ∩ provided_symbols v)
    by by apply elem_of_intersection.
  rewrite Hempty in Hs. by apply not_elem_of_empty in Hs.
Qed.

Lemma collide_sym u v : collide u v -> collide v u.
Proof using Type. intros (Hns & s & Hu & Hv). split; [done |]. by exists s. Qed.

Lemma register_inr u g g' :
register u g = inr g' ->
g' = g ++ [u] /\ forall v, v ∈ g -> ~ collide u v.
Proof using Type.
unfold register. destruct (existsb (collideb u) g) eqn:Hex; [done |].
intros [= <-]. split; [done |]. intros v Hv Hc.
apply collideb_spec in Hc.
assert (existsb (collideb u) g = true); [| congruence].
apply existsb_exists. exists v. split; [by apply list_elem_of_In | done].
Qed.

Lemma register_keeps_pairs_distinct u g g' :
no_duplicate_pairs g -> register u g = inr g' -> no_duplicate_pairs g'.
Proof using Type.
intros Hg Hreg. apply register_inr in Hreg as [-> Hfresh].
intros i j a b Hi Hj Hij Hc.
apply lookup_snoc_Some in Hi as [[Hil Hi] | [-> ->]];
  apply lookup_snoc_Some in Hj as [[Hjl Hj] | [-> ->]].
- by apply (Hg i j a b).
- apply (Hfresh a); [by eapply list_elem_of_lookup_2 | by apply collide_sym].
- apply (Hfresh b); [by eapply list_elem_of_lookup_2 | done].
- done.
Qed.

Lemma register_all_inr us : forall g g',
no_duplicate_pairs g -> register_all us g = inr g' ->
g' = g ++ us /\ no_duplicate_pairs g'.
Proof using Type.
induction us as [| u us IH]; intros g g' Hg; simpl.
- intros [= <-]. by rewrite app_nil_r.
- destruct (register u g) as [| g1] eqn:Hreg; [done |]. intros Hall.
  pose proof (register_keeps_pairs_distinct _ _ _ Hg Hreg) as Hg1.
  apply register_inr in Hreg as [-> _].
  destruct (IH _ _ Hg1 Hall) as [-> Hnd].
  split; [by rewrite <- app_assoc | done].
Qed.




End Engine.

(** *** The manifest *)

#[local] Arguments py : simpl never.
#[local] Arguments choose_std : simpl never.
#[local] Arguments strip : simpl never.
#[local] Arguments replace : simpl never.
#[local] Arguments REQUIRED : simpl never.

Lemma run_inr env call w :
  run env = (inr call, w) ->
  exists v ver std : str,
    environ env !! "CUMM_CUDA_VERSION"%string = Some v /\ v <> [] /\
    (README_md env = inl FileNotFoundError /\ long_description call = DESCRIPTION
     \/ exists c, README_md env = inr c /\ long_description call = 10 :: c) /\
    version_txt env = inr ver /\ version_py_write env = None /\
    choose_std v = inr std /\
    heap w = built_heap std /\
    written w = [([NAME; py "__version__.py"],
                  py "__version__ = '" ++ strip ver ++ py "'" ++ [10])] /\
    name call = py "spconv-cu" ++ replace 46 [] v /\
    install_requires call =
      REQUIRED [py "cumm-cu" ++ replace 46 [] v ++ py ">=0.7.11, <1.0.0"] /\
    version call = strip ver /\
    ext_modules call = [13%nat] /\
    description call = DESCRIPTION.
Proof using Type.
  unfold run, setup_py, environ_get.
  destruct env as [environ0 readme vtxt vw fp].
  cbn [environ README_md version_txt version_py_write find_packages].
  destruct (environ0 !! _) as [v |] eqn:Hv; [| done].
  destruct v as [| c0 v]; [done |].
  simpl (default _ _). cbv zeta.
  destruct (choose_std (c0 :: v)) as [e | std] eqn:Hstd;
    destruct readme as [[] | c]; destruct vtxt as [e1 | ver];
    destruct vw as [e2 |]; cbn; unfold ret; intros Heq;
    try discriminate Heq; injection Heq as <- <-.
  - exists (c0 :: v), ver, std. cbn.
    split; [done |]. split; [done |]. split; [by left |].
    repeat split; first [reflexivity | exact Hstd].
  - exists (c0 :: v), ver, std. cbn.
    split; [done |]. split; [done |]. split; [right; by exists c |].
    repeat split; first [reflexivity | exact Hstd].
Qed.


Lemma run_inl env e w :
  run env = (inl e, w) ->
  (heap w = []
   /\ (environ_get env "CUMM_CUDA_VERSION" [] = [] \/ ~ files_ok env))
  \/ (exists v ver : str,
        environ env !! "CUMM_CUDA_VERSION"%string = Some v /\ v <> []
        /\ files_ok env /\ version_txt env = inr ver
        /\ choose_std v = inl e
        /\ heap w = kernel_heap
        /\ written w = [([NAME; py "__version__.py"],
                         py "__version__ = '" ++ strip ver ++ py "'" ++ [10])]).
Proof using Type.
  unfold run, setup_py, environ_get, files_ok.
  destruct env as [environ0 readme vtxt vw fp].
  cbn [environ README_md version_txt version_py_write find_packages].
  destruct (environ0 !! _) as [v |] eqn:Hv;
    [| intros [= <- <-]; left; split; [done | by left]].
  destruct v as [| c0 v];
    [intros [= <- <-]; left; split; [done | by left] |].
  simpl (default _ _). cbv zeta.
  destruct (choose_std (c0 :: v)) as [e' | std] eqn:Hstd;
    destruct readme as [[] | c]; destruct vtxt as [e1 | ver];
    destruct vw as [e2 |]; cbn; unfold ret; intros Heq;
    try discriminate Heq; injection Heq as <- <-; cbn.
  all: try (left; split; [done |]; right;
            intros (Hreadme & [ver' Hver] & Hwrite);
            (done || (destruct Hreadme as [Hr | [c' Hr]]; done))).
  all: right; exists (c0 :: v), ver; repeat split; try done.
  all: (by left) || (right; by eexists) || (by eexists).
Qed.

Lemma replace_dots_filter v : replace 46 [] v = without_dots v.
Proof using Type.
  unfold replace, without_dots.
  induction v as [| c v IH]; [done |].
  cbn [flat_map List.filter]. rewrite IH. by destruct (c =? 46).
Qed.

Lemma split_not_nil sep s : split sep s <> [].
Proof using Type.
  destruct s as [| c s]; [done |]. simpl.
  destruct (c =? sep); [done |]. by destruct (split sep s).
Qed.

Lemma map_result_inl {A B} (f : A -> result B) l e :
  map_result f l = inl e -> exists a, a ∈ l /\ f a = inl e.
Proof using Type.
  induction l as [| a l IH]; [done |]. simpl.
  destruct (f a) as [e' | b] eqn:Hfa; simpl.
  - intros [= <-]. exists a. split; [left | done].
  - destruct (map_result f l) as [e' | bs]; simpl; [| done].
    intros [= <-]. destruct (IH eq_refl) as (a' & Ha' & Hfa').
    exists a'. split; [by right | done].
Qed.

Lemma map_result_fails {A B} (f : A -> result B) l a e :
  a ∈ l -> f a = inl e -> exists e', map_result f l = inl e'.
Proof using Type.
  intros Ha Hfa. induction l as [| b l IH]; [by apply elem_of_nil in Ha |].
  simpl. apply elem_of_cons in Ha as [<- | Ha].
  - rewrite Hfa. by eexists.
  - destruct (f b); simpl; [by eexists |].
    destruct (IH Ha) as [e' ->]. by eexists.
Qed.

Lemma int_or_raise_inl s e :
  int_or_raise s = inl e ->
  int Py_UNICODE_TODECIMAL int_max_str_digits s = None /\ e = ValueError s.
Proof using Type.
  unfold int_or_raise.
  destruct (int _ _ s); [done |]. by intros [= <-].
Qed.

Lemma choose_std_inl v e :
  choose_std v = inl e ->
  exists s, s ∈ split 46 v
    /\ int Py_UNICODE_TODECIMAL int_max_str_digits s = None
    /\ e = ValueError s.
Proof using Type.
  unfold choose_std.
  destruct (map_result int_or_raise (split 46 v)) as [e' | t] eqn:Hmap; simpl.
  - intros [= <-]. apply map_result_inl in Hmap as (s & Hs & Hfs).
    apply int_or_raise_inl in Hfs as [Hnone ->]. by exists s.
  - destruct t as [| major t].
    + destruct (split 46 v) as [| a l] eqn:Hsplit;
        [by apply split_not_nil in Hsplit |].
      simpl in Hmap. destruct (int_or_raise a); simpl in Hmap; [done |].
      by destruct (map_result int_or_raise l).
    + by destruct (major <? 11)%Z.
Qed.

Lemma choose_std_fails v s :
  s ∈ split 46 v ->
  int Py_UNICODE_TODECIMAL int_max_str_digits s = None ->
  exists e, choose_std v = inl e.
Proof using Type.
  intros Hs Hnone. unfold choose_std.
  destruct (map_result_fails int_or_raise (split 46 v) s (ValueError s) Hs)
    as [e ->]; [| by eexists].
  unfold int_or_raise. by rewrite Hnone.
Qed.

Lemma choose_std_inr v std :
  choose_std v = inr std ->
  exists first rest major,
    split 46 v = first :: rest
    /\ int Py_UNICODE_TODECIMAL int_max_str_digits first = Some major
    /\ std = if (major <? 11)%Z then py "c++14" else py "c++17".
Proof using Type.
  unfold choose_std.
  destruct (split 46 v) as [| first rest] eqn:Hsplit;
    [by apply split_not_nil in Hsplit |].
  simpl. unfold int_or_raise at 1.
  destruct (int _ _ first) as [major |] eqn:Hfirst; simpl; [| done].
  destruct (map_result int_or_raise rest); simpl; [done |].
  exists first, rest, major. split; [done |]. split; [done |].
  by destruct (major <? 11)%Z; simplify_eq.
Qed.

Lemma built_gemm_units std w r params :
  heap w = built_heap std ->
  class_at w r = Some (GemmMainUnitTest params) ->
  r = 0%nat /\ params = all_shuffle.
Proof using Type.
  unfold class_at. intros ->. heap_cases r.
  intros [= <-]. done.
Qed.

Lemma built_conv_units std w r params :
  heap w = built_heap std ->
  class_at w r = Some (ConvMainUnitTest params) ->
  r = 1%nat /\ params = all_imp.
Proof using Type.
  unfold class_at. intros ->. heap_cases r.
  intros [= <-]. done.
Qed.

(** C1: in every successful run the catalogue handed to the build, for
    each primitive, is the concatenation of the four per-tier lists in the
    order SIMT, Volta, Turing, Ampere: the kernel unit of each primitive in
    the extension's unit list holds exactly that list, and no unit holds
    any other catalogue. *)
Theorem catalogue_is_tier_concatenation env call w :
  run env = (inr call, w) ->
  exists e x cu convcu shuffle imp,
    ext_modules call = [e] /\ heap w !! e = Some (Extension x)
    /\ cu ∈ ext_units x /\ convcu ∈ ext_units x
    /\ class_at w cu = Some (GemmMainUnitTest shuffle)
    /\ class_at w convcu = Some (ConvMainUnitTest imp)
    /\ shuffle = SHUFFLE_SIMT_PARAMS ++ SHUFFLE_VOLTA_PARAMS
                 ++ SHUFFLE_TURING_PARAMS ++ SHUFFLE_AMPERE_PARAMS
    /\ imp = IMPLGEMM_SIMT_PARAMS ++ IMPLGEMM_VOLTA_PARAMS
             ++ IMPLGEMM_TURING_PARAMS ++ IMPLGEMM_AMPERE_PARAMS
    /\ (forall r p, class_at w r = Some (GemmMainUnitTest p) -> p = shuffle)
    /\ (forall r p, class_at w r = Some (ConvMainUnitTest p) -> p = imp).
Proof using Type.
  intros Hrun.
  destruct (run_inr _ _ _ Hrun)
    as (v & ver & std & _ & _ & _ & _ & _ & _ & Hheap & _ & _ & _ & _ & Hext & _).
  eexists 13%nat, _, 0%nat, 1%nat, _, _.
  unfold class_at. rewrite Hheap.
  split; [exact Hext |]. split; [reflexivity |]. cbn [ext_units].
  split; [in_list |]. split; [in_list |].
  split; [reflexivity |]. split; [reflexivity |].
  split; [reflexivity |]. split; [reflexivity |].
  split; intros r p Hr.
  - eapply (built_gemm_units std w r); [done |].
    unfold class_at. by rewrite Hheap.
  - eapply (built_conv_units std w r); [done |].
    unfold class_at. by rewrite Hheap.
Qed.

(** C3: every successful run creates exactly one extension; it targets the
    module spconv/core_cc, it is the one passed to setup, and its unit list
    consists of the thirteen units, each once, which are all the units that
    exist. *)
Theorem single_extension_holds_all_units env call w :
  run env = (inr call, w) ->
  exists e x,
    ext_modules call = [e] /\ heap w !! e = Some (Extension x)
    /\ List.filter is_extension (heap w) = [Extension x]
    /\ ext_name x = py "spconv/core_cc"
    /\ length (ext_units x) = 13%nat /\ NoDup (ext_units x)
    /\ mapM (class_at w) (ext_units x) =
         Some [GemmTunerSimple 0%nat; ConvTunerSimple 1%nat;
               ConvGemmOps 2%nat 3%nat; SpconvOps; BoxOps; HashTable;
               CompileInfo; ExternalAllocator; PointCloudCompress;
               ExternalSpconvMatmul; InferenceOps;
               GemmMainUnitTest all_shuffle; ConvMainUnitTest all_imp]
    /\ length (List.filter is_unit (heap w)) = 13%nat
    /\ (forall r c, class_at w r = Some c -> r ∈ ext_units x).
Proof using Type.
  intros Hrun.
  destruct (run_inr _ _ _ Hrun)
    as (v & ver & std & _ & _ & _ & _ & _ & _ & Hheap & _ & _ & _ & _ & Hext & _).
  eexists 13%nat, _. unfold class_at. rewrite Hheap.
  split; [exact Hext |]. split; [reflexivity |].
  split; [reflexivity |]. split; [reflexivity |].
  split; [reflexivity |]. cbn [ext_units].
  split; [apply (bool_decide_unpack _); by vm_compute |].
  split; [reflexivity |]. split; [reflexivity |].
  intros r c. heap_cases r; intros _; in_list.
Qed.

(** C2: when CUMM_CUDA_VERSION is unset or empty the script raises
    RuntimeError at once: the state it was started in is left as it was, so
    no unit and no extension has been constructed, no file written, and a
    fresh run ends with an empty heap. *)
Theorem unset_cuda_version_raises_RuntimeError env w0 :
  environ env !! "CUMM_CUDA_VERSION"%string = None
  \/ environ env !! "CUMM_CUDA_VERSION"%string = Some ([] : str) ->
  setup_py env w0 =
    (inl (RuntimeError
            "CUMM_CUDA_VERSION must be set. e.g. export CUMM_CUDA_VERSION=11.8"),
     w0)
  /\ run env =
       (inl (RuntimeError
               "CUMM_CUDA_VERSION must be set. e.g. export CUMM_CUDA_VERSION=11.8"),
        {| heap := []; written := [] |}).
Proof using Type.
  intros Hv.
  assert (Hd : environ_get env "CUMM_CUDA_VERSION" [] = [])
    by (unfold environ_get; by destruct Hv as [-> | ->]).
  unfold run, setup_py. cbv zeta. rewrite Hd. split; reflexivity.
Qed.

(** C4: two successful runs on the same CUMM_CUDA_VERSION and the same
    version.txt construct the same objects in the same order, with the same
    namespaces, and hand the same unit list to the same extension. *)
Theorem composition_is_deterministic env1 env2 call1 w1 call2 w2 :
  environ env1 !! "CUMM_CUDA_VERSION"%string
    = environ env2 !! "CUMM_CUDA_VERSION"%string ->
  version_txt env1 = version_txt env2 ->
  run env1 = (inr call1, w1) ->
  run env2 = (inr call2, w2) ->
  heap w1 = heap w2
  /\ ext_modules call1 = ext_modules call2
  /\ (forall r, class_at w1 r = class_at w2 r)
  /\ (forall r, namespace_at w1 r = namespace_at w2 r)
  /\ (forall e, extension_units w1 e = extension_units w2 e)
  /\ namespace_at w1 0%nat = Some (py "cumm.gemm.main")
  /\ namespace_at w1 1%nat = Some (py "cumm.conv.main")
  /\ namespace_at w1 2%nat = Some (py "csrc.sparse.convops.gemmops")
  /\ namespace_at w1 3%nat = Some (py "csrc.sparse.convops.convops")
  /\ namespace_at w1 4%nat = Some (py "csrc.sparse.convops.spops")
  /\ written w1 = written w2.
Proof using Type.
  intros Hv Hver Hrun1 Hrun2.
  destruct (run_inr _ _ _ Hrun1)
    as (v1 & ver1 & std1 & Hv1 & _ & _ & Hver1 & _ & Hstd1 & Hheap1 & Hw1
        & _ & _ & _ & Hext1 & _).
  destruct (run_inr _ _ _ Hrun2)
    as (v2 & ver2 & std2 & Hv2 & _ & _ & Hver2 & _ & Hstd2 & Hheap2 & Hw2
        & _ & _ & _ & Hext2 & _).
  assert (v1 = v2) as <- by congruence.
  assert (ver1 = ver2) as <- by congruence.
  assert (std1 = std2) as <- by congruence.
  destruct w1 as [h1 f1], w2 as [h2 f2]. cbn [heap written] in *.
  unfold extension_units, unit_at, namespace_at, class_at. cbn [heap written].
  subst h1 h2 f1 f2. rewrite Hext1, Hext2.
  repeat split; reflexivity.
Qed.

(** C5: in every successful run a GEMM tuner exists only over the unit
    that holds the whole shuffle catalogue, a Conv tuner only over the unit
    that holds the whole implicit-GEMM catalogue, both tuners are in the
    extension, and every variant of every tier is in the catalogue that the
    tuner of its primitive is built on. *)
Theorem tuners_built_from_full_catalogue env call w :
  run env = (inr call, w) ->
  (exists gemmtuner convtuner cu convcu,
      class_at w gemmtuner = Some (GemmTunerSimple cu)
      /\ class_at w cu = Some (GemmMainUnitTest all_shuffle)
      /\ class_at w convtuner = Some (ConvTunerSimple convcu)
      /\ class_at w convcu = Some (ConvMainUnitTest all_imp)
      /\ forall e x, heap w !! e = Some (Extension x) ->
           gemmtuner ∈ ext_units x /\ convtuner ∈ ext_units x)
  /\ (forall r u, class_at w r = Some (GemmTunerSimple u) ->
        class_at w u = Some (GemmMainUnitTest all_shuffle))
  /\ (forall r u, class_at w r = Some (ConvTunerSimple u) ->
        class_at w u = Some (ConvMainUnitTest all_imp))
  /\ (forall p, p ∈ SHUFFLE_SIMT_PARAMS \/ p ∈ SHUFFLE_VOLTA_PARAMS
                \/ p ∈ SHUFFLE_TURING_PARAMS \/ p ∈ SHUFFLE_AMPERE_PARAMS ->
        p ∈ all_shuffle)
  /\ (forall p, p ∈ IMPLGEMM_SIMT_PARAMS \/ p ∈ IMPLGEMM_VOLTA_PARAMS
                \/ p ∈ IMPLGEMM_TURING_PARAMS \/ p ∈ IMPLGEMM_AMPERE_PARAMS ->
        p ∈ all_imp).
Proof using Type.
  intros Hrun.
  destruct (run_inr _ _ _ Hrun)
    as (v & ver & std & _ & _ & _ & _ & _ & _ & Hheap & _).
  unfold class_at. rewrite Hheap. repeat split.
  - exists 2%nat, 3%nat, 0%nat, 1%nat. repeat split; try done.
    all: revert H; heap_cases e; intros [= <-]; cbn; in_list.
  - intros r u. heap_cases r. by intros [= <-].
  - intros r u. heap_cases r. by intros [= <-].
  - intros p. rewrite !elem_of_app. tauto.
  - intros p. rewrite !elem_of_app. tauto.
Qed.

(** C6: in every successful run the composite ConvGemmOps unit has the
    namespace csrc.sparse.convops.spops, its two constituents are the
    tuners with the namespaces csrc.sparse.convops.gemmops and
    csrc.sparse.convops.convops, all three lie in the scope
    csrc.sparse.convops, and any other successful run assigns the same
    namespaces to the same units. *)
Theorem composite_namespace_scoped_with_constituents env call w :
  run env = (inr call, w) ->
  exists convops gemmtuner convtuner ns ns_gemm ns_conv,
    class_at w convops = Some (ConvGemmOps gemmtuner convtuner)
    /\ (forall r a b, class_at w r = Some (ConvGemmOps a b) -> r = convops)
    /\ namespace_at w convops = Some ns
    /\ namespace_at w gemmtuner = Some ns_gemm
    /\ namespace_at w convtuner = Some ns_conv
    /\ ns = py "csrc.sparse.convops.spops"
    /\ ns_gemm = py "csrc.sparse.convops.gemmops"
    /\ ns_conv = py "csrc.sparse.convops.convops"
    /\ scope_of ns = [py "csrc"; py "sparse"; py "convops"]
    /\ scope_of ns_gemm = scope_of ns /\ scope_of ns_conv = scope_of ns
    /\ (forall env' call' w', run env' = (inr call', w') ->
          class_at w' convops = Some (ConvGemmOps gemmtuner convtuner)
          /\ namespace_at w' convops = Some ns
          /\ namespace_at w' gemmtuner = Some ns_gemm
          /\ namespace_at w' convtuner = Some ns_conv).
Proof using Type.
  intros Hrun.
  destruct (run_inr _ _ _ Hrun)
    as (v & ver & std & _ & _ & _ & _ & _ & _ & Hheap & _).
  exists 4%nat, 2%nat, 3%nat. eexists _, _, _.
  unfold class_at, namespace_at. rewrite Hheap.
  split; [reflexivity |].
  split; [intros r a b; heap_cases r |].
  split; [reflexivity |]. split; [reflexivity |]. split; [reflexivity |].
  split; [reflexivity |]. split; [reflexivity |]. split; [reflexivity |].
  split; [reflexivity |]. split; [reflexivity |]. split; [reflexivity |].
  intros env' call' w' Hrun'.
  destruct (run_inr _ _ _ Hrun')
    as (v' & ver' & std' & _ & _ & _ & _ & _ & _ & Hheap' & _).
  rewrite Hheap'. done.
Qed.

(** C8: for every non-empty CUMM_CUDA_VERSION [v] the release name is
    spconv-cu followed by [v] without its dots, and the requirement list
    holds, in place of the bare cumm, exactly the one requirement
    cumm-cu<v without dots>>=0.7.11, <1.0.0; a run that reaches setup passes
    this name and these requirements. *)
Theorem release_name_and_requirement env (v : str) :
  environ env !! "CUMM_CUDA_VERSION"%string = Some v ->
  v <> [] ->
  release v =
    inr (py "spconv-cu" ++ without_dots v,
         [py "cumm-cu" ++ without_dots v ++ py ">=0.7.11, <1.0.0"])
  /\ (forall call w, run env = (inr call, w) ->
        name call = py "spconv-cu" ++ without_dots v
        /\ install_requires call =
             [py "pccm>=0.4.16"; py "ccimport>=0.4.4"; py "pybind11>=2.6.0";
              py "fire"; py "numpy<2.0.0";
              py "cumm-cu" ++ without_dots v ++ py ">=0.7.11, <1.0.0"]
        /\ py "cumm" ∉ install_requires call).
Proof using Type.
  intros Hv Hne. split.
  - unfold release. destruct v as [| c v]; [done |].
    by rewrite replace_dots_filter.
  - intros call w Hrun.
    destruct (run_inr _ _ _ Hrun)
      as (v' & ver & std & Hv' & _ & _ & _ & _ & _ & _ & _ & Hname & Hreq & _).
    assert (v' = v) as -> by congruence.
    rewrite Hname, Hreq, replace_dots_filter. split; [done |]. split; [done |].
    unfold REQUIRED. cbn [app]. rewrite !not_elem_of_cons.
    repeat split; try (by vm_compute). by apply not_elem_of_nil.
Qed.

(** C9: in a successful run the standard passed to the extension is c++14
    exactly when the first dot-separated component of CUMM_CUDA_VERSION
    parses to an integer below 11, and c++17 otherwise.  When the variable
    is non-empty and some component does not parse as a decimal integer,
    the version parsing step raises ValueError for such a component, no run
    constructs an extension, and a run whose file operations go through
    ends with that ValueError, having constructed only the two kernel
    units. *)
Theorem cxx_standard_from_cuda_version env (v : str) :
  environ env !! "CUMM_CUDA_VERSION"%string = Some v ->
  v <> [] ->
  (forall call w, run env = (inr call, w) ->
     exists e x first rest major,
       ext_modules call = [e] /\ heap w !! e = Some (Extension x)
       /\ split 46 v = first :: rest
       /\ int Py_UNICODE_TODECIMAL int_max_str_digits first = Some major
       /\ (ext_std x = py "c++14" <-> (major < 11)%Z)
       /\ (ext_std x = py "c++17" <-> ~ (major < 11)%Z))
  /\ (forall s, s ∈ split 46 v ->
        int Py_UNICODE_TODECIMAL int_max_str_digits s = None ->
        exists bad e w,
          bad ∈ split 46 v
          /\ int Py_UNICODE_TODECIMAL int_max_str_digits bad = None
          /\ choose_std v = inl (ValueError bad)
          /\ run env = (inl e, w)
          /\ List.filter is_extension (heap w) = []
          /\ (files_ok env -> e = ValueError bad /\ heap w = kernel_heap)).
Proof using Type.
  intros Hv Hne. split.
  - intros call w Hrun.
    destruct (run_inr _ _ _ Hrun)
      as (v' & ver & std & Hv' & _ & _ & _ & _ & Hstd & Hheap & _ & _ & _ & _
          & Hext & _).
    assert (v' = v) as -> by congruence.
    apply choose_std_inr in Hstd as (first & rest & major & Hsplit & Hint & ->).
    eexists 13%nat, _, first, rest, major. rewrite Hheap.
    split; [done |]. split; [reflexivity |]. split; [done |]. split; [done |].
    cbn [ext_std]. destruct (Z.ltb_spec major 11); split; split;
      try done; try lia; by vm_compute.
  - intros s Hs Hnone.
    destruct (choose_std_fails v s Hs Hnone) as [e0 Hstd].
    destruct (choose_std_inl _ _ Hstd) as (bad & Hbad & Hbadnone & ->).
    destruct (run env) as [[e | call] w] eqn:Hrun.
    + exists bad, e, w. repeat split; try done.
      * destruct (run_inl _ _ _ Hrun) as [[-> _] | (_ & _ & _ & _ & _ & _ & _ & -> & _)];
          reflexivity.
      * destruct (run_inl _ _ _ Hrun)
          as [[_ [Hempty | Hfiles]] | (v' & _ & Hv' & _ & _ & _ & Hstd' & _ & _)].
        -- unfold environ_get in Hempty. rewrite Hv in Hempty. done.
        -- done.
        -- assert (v' = v) as -> by congruence. congruence.
      * destruct (run_inl _ _ _ Hrun)
          as [[_ [Hempty | Hfiles]] | (_ & _ & _ & _ & _ & _ & _ & Hheap & _)].
        -- unfold environ_get in Hempty. rewrite Hv in Hempty. done.
        -- done.
        -- done.
    + destruct (run_inr _ _ _ Hrun)
        as (v' & _ & std & Hv' & _ & _ & _ & _ & Hstd' & _).
      assert (v' = v) as -> by congruence. congruence.
Qed.

(** C10: a missing README.md is handled inside the script: the long
    description becomes the short description and the rest of the script
    runs exactly as it does when the file is there, up to the long
    description passed to setup; when the file is read, the long
    description is a newline followed by its text. *)
Theorem missing_README_falls_back_to_description env :
  (README_md env = inl FileNotFoundError ->
   forall w0, read_long_description env w0
              = (inr (py "spatial sparse convolution"), w0))
  /\ (forall c, README_md env = inr c ->
      forall w0, read_long_description env w0 = (inr (10 :: c), w0))
  /\ (forall call w, run env = (inr call, w) ->
        (README_md env = inl FileNotFoundError ->
         long_description call = py "spatial sparse convolution"
         /\ long_description call = description call)
        /\ (forall c, README_md env = inr c ->
            long_description call = 10 :: c))
  /\ (forall c,
        run (with_README env (inl FileNotFoundError)) =
          match run (with_README env (inr c)) with
          | (inr call, w) =>
              (inr (with_long_description call (py "spatial sparse convolution")), w)
          | (inl e, w) => (inl e, w)
          end).
Proof using Type.
  split; [| split; [| split]].
  - intros Hr w0. unfold read_long_description, try_except, bind, read_file, lift.
    by rewrite Hr.
  - intros c Hr w0.
    unfold read_long_description, try_except, bind, read_file, lift.
    by rewrite Hr.
  - intros call w Hrun.
    destruct (run_inr _ _ _ Hrun)
      as (v & ver & std & _ & _ & Hreadme & _ & _ & _ & _ & _ & _ & _ & _
          & _ & Hdescr).
    rewrite Hdescr.
    destruct Hreadme as [[Hr ->] | (c & Hr & ->)]; rewrite Hr.
    + split; [done | by intros c [=]].
    + split; [done | by intros c' [= <-]].
  - intros c. unfold run, setup_py, environ_get, with_README.
    destruct env as [environ0 readme vtxt vw fp].
    cbn [environ README_md version_txt version_py_write find_packages].
    destruct (environ0 !! _) as [v |] eqn:Hv; [| done].
    destruct v as [| c0 v]; [done |].
    simpl (default _ _). cbv zeta.
    destruct (choose_std (c0 :: v)) as [e | std] eqn:Hstd;
      destruct vtxt as [e1 | ver]; destruct vw as [e2 |]; cbn;
      by rewrite ?Hstd.
Qed.



(** *** Further properties of the script *)

Lemma map_result_inr_Forall {A B} (f : A -> result B) l bs :
  map_result f l = inr bs -> Forall (fun a => exists b, f a = inr b) l.
Proof using Type.
  revert bs. induction l as [| a l IH]; intros bs; [by constructor |].
  simpl. destruct (f a) as [e | b] eqn:Hfa; simpl; [done |].
  destruct (map_result f l) as [e | bs'] eqn:Hl; simpl; [done |].
  intros _. constructor; [by exists b | by apply (IH bs')].
Qed.

Lemma map_result_total {A B} (f : A -> result B) l :
  Forall (fun a => exists b, f a = inr b) l ->
  exists bs, map_result f l = inr bs /\ length bs = length l.
Proof using Type.
  induction 1 as [| a l [b Hb] _ (bs & IH & Hlen)]; [by exists [] |].
  exists (b :: bs). simpl. rewrite Hb, IH. simpl. by rewrite Hlen.
Qed.

Lemma choose_std_parses v :
  (exists std, choose_std v = inr std) <->
  Forall (fun s => int Py_UNICODE_TODECIMAL int_max_str_digits s <> None)
         (split 46 v).
Proof using Type.
  split.
  - intros [std Hstd]. unfold choose_std in Hstd.
    destruct (map_result int_or_raise (split 46 v)) as [e | t] eqn:Hmap;
      [done |].
    apply map_result_inr_Forall in Hmap.
    eapply Forall_impl; [exact Hmap |].
    intros s [z Hz]. unfold int_or_raise in Hz.
    by destruct (int _ _ s).
  - intros Hall.
    destruct (choose_std v) as [e | std] eqn:Hstd; [| by exists std].
    apply choose_std_inl in Hstd as (s & Hs & Hnone & _).
    rewrite Forall_forall in Hall. by destruct (Hall s Hs).
Qed.

(** X1: the script runs to the end only if CUMM_CUDA_VERSION is set and
    not empty, README.md is read or missing, version.txt is read, the
    version module is written and every dot-separated component of the
    version is accepted by [int]. *)
Theorem run_succeeds_only_if env call w :
  run env = (inr call, w) ->
  exists v : str,
    environ env !! "CUMM_CUDA_VERSION"%string = Some v /\ v <> []
    /\ files_ok env
    /\ Forall (fun s => int Py_UNICODE_TODECIMAL int_max_str_digits s <> None)
              (split 46 v).
Proof using Type.
  intros Hrun.
  destruct (run_inr _ _ _ Hrun)
    as (v & ver & std & Hv & Hne & Hreadme & Hver & Hwrite & Hstd & _).
  exists v. split; [done |]. split; [done |]. split.
  - split; [| split; [by exists ver | done]].
    destruct Hreadme as [[Hr _] | (c & Hr & _)]; [by left | right; by exists c].
  - apply choose_std_parses. by exists std.
Qed.

(** X2: an exception of the README.md read other than FileNotFoundError is
    not caught: the script ends with it before anything is written or
    constructed. *)
Theorem README_other_exception_propagates env (v : str) e :
  environ env !! "CUMM_CUDA_VERSION"%string = Some v -> v <> [] ->
  README_md env = inl e -> e <> FileNotFoundError ->
  run env = (inl e, {| heap := []; written := [] |}).
Proof using Type.
  intros Hv Hne Hr He. unfold run, setup_py, environ_get. rewrite Hv.
  destruct v as [| c0 v]; [done |].
  unfold read_long_description. rewrite Hr.
  destruct e; try done; reflexivity.
Qed.

(** X3: an exception of the version.txt read ends the script, whatever it is:
    nothing has been written or constructed. *)
Theorem version_txt_exception_propagates env (v : str) e :
  environ env !! "CUMM_CUDA_VERSION"%string = Some v -> v <> [] ->
  (README_md env = inl FileNotFoundError \/ exists c, README_md env = inr c) ->
  version_txt env = inl e ->
  run env = (inl e, {| heap := []; written := [] |}).
Proof using Type.
  intros Hv Hne Hr Hver. unfold run, setup_py, environ_get. rewrite Hv.
  destruct v as [| c0 v]; [done |].
  unfold read_long_description, read_version. rewrite Hver.
  destruct Hr as [-> | [c ->]]; reflexivity.
Qed.

(** X4: when the version module cannot be written the script ends with the
    exception of the write: no file is recorded and no unit constructed. *)
Theorem version_write_exception_propagates env (v ver : str) e :
  environ env !! "CUMM_CUDA_VERSION"%string = Some v -> v <> [] ->
  (README_md env = inl FileNotFoundError \/ exists c, README_md env = inr c) ->
  version_txt env = inr ver ->
  version_py_write env = Some e ->
  run env = (inl e, {| heap := []; written := [] |}).
Proof using Type.
  intros Hv Hne Hr Hver Hw. unfold run, setup_py, environ_get. rewrite Hv.
  destruct v as [| c0 v]; [done |].
  unfold read_long_description, read_version. rewrite Hver, Hw.
  destruct Hr as [-> | [c ->]]; reflexivity.
Qed.

(** X5: a version that does not parse is found out late: when the ValueError
    is raised the version module has already been written and the two
    kernel units constructed. *)
Theorem bad_version_found_after_version_written env (v ver s : str) :
  environ env !! "CUMM_CUDA_VERSION"%string = Some v -> v <> [] ->
  (README_md env = inl FileNotFoundError \/ exists c, README_md env = inr c) ->
  version_txt env = inr ver ->
  version_py_write env = None ->
  s ∈ split 46 v ->
  int Py_UNICODE_TODECIMAL int_max_str_digits s = None ->
  exists bad,
    bad ∈ split 46 v
    /\ int Py_UNICODE_TODECIMAL int_max_str_digits bad = None
    /\ run env =
         (inl (ValueError bad),
          {| heap := kernel_heap;
             written := [([py "spconv"; py "__version__.py"],
                          py "__version__ = '" ++ strip ver ++ py "'" ++ [10])] |}).
Proof using Type.
  intros Hv Hne Hr Hver Hw Hs Hnone.
  destruct (choose_std_fails v s Hs Hnone) as [e0 Hstd].
  destruct (choose_std_inl _ _ Hstd) as (bad & Hbad & Hbadnone & ->).
  exists bad. split; [done |]. split; [done |].
  unfold run, setup_py, environ_get. rewrite Hv.
  destruct v as [| c0 v]; [done |].
  unfold read_long_description, read_version. rewrite Hver, Hw.
  simpl (default _ _). cbv zeta.
  destruct Hr as [-> | [c ->]]; cbn; rewrite Hstd; reflexivity.
Qed.

(** X6: in every run, finished or not, at most one file is written, it is the
    version module with the stripped text of version.txt, and no object is
    constructed before it is written. *)
Theorem version_module_written_first env :
  let w := snd (run env) in
  (written w = []
   \/ exists ver, version_txt env = inr ver
        /\ written w = [([py "spconv"; py "__version__.py"],
                         py "__version__ = '" ++ strip ver ++ py "'" ++ [10])])
  /\ (heap w <> [] -> written w <> []).
Proof using Type.
  cbv zeta. destruct (run env) as [[e | call] w] eqn:Hrun; cbn [snd].
  - destruct (run_inl _ _ _ Hrun)
      as [[Hheap _] | (v & ver & _ & _ & _ & Hver & _ & _ & Hw)].
    + split; [| by rewrite Hheap].
      unfold run, setup_py, environ_get in Hrun.
      destruct env as [environ0 readme vtxt vw fp].
      cbn [environ README_md version_txt version_py_write find_packages] in *.
      destruct (environ0 !! _) as [v |];
        [| injection Hrun as _ <-; by left].
      destruct v as [| c0 v]; [injection Hrun as _ <-; by left |].
      simpl (default _ _) in Hrun. cbv zeta in Hrun.
      destruct (choose_std (c0 :: v)) as [e' | std] eqn:Hstd;
        destruct readme as [[] | c]; destruct vtxt as [e1 | ver];
        destruct vw as [e2 |]; cbn in Hrun; unfold ret in Hrun;
        injection Hrun as _ <-; cbn in *; try done; by left.
    + split; [right; by exists ver | by rewrite Hw].
  - destruct (run_inr _ _ _ Hrun)
      as (v & ver & std & _ & _ & _ & Hver & _ & _ & _ & Hw & _).
    split; [right; by exists ver | by rewrite Hw].
Qed.

Lemma lstrip_decompose sp s :
  exists pre, s = pre ++ lstrip sp s /\ forallb sp pre = true
              /\ (forall c t, lstrip sp s = c :: t -> sp c = false).
Proof using Type.
  induction s as [| c s (pre & Hs & Hpre & Hhd)].
  - exists []. by repeat split.
  - simpl. destruct (sp c) eqn:Hc.
    + exists (c :: pre). simpl. rewrite Hc, Hpre. split; [by f_equal |].
      split; [done | exact Hhd].
    + exists []. split; [done |]. split; [done |].
      intros c' t [= <- <-]. exact Hc.
Qed.

Lemma lstrip_all_space sp s :
  lstrip sp s = [] <-> forallb sp s = true.
Proof using Type.
  induction s as [| c s IH]; [done |]. simpl.
  destruct (sp c); [exact IH | done].
Qed.

Lemma forallb_reverse {A} (f : A -> bool) l :
  forallb f (rev l) = forallb f l.
Proof using Type.
  induction l as [| a l IH]; [done |]. simpl.
  rewrite forallb_app, IH. simpl. rewrite andb_true_r. apply andb_comm.
Qed.



(** X8: the script does not reject an empty version: the version passed to
    setup is empty exactly when version.txt holds white space only, the
    empty file included. *)
Theorem empty_version_iff_blank_version_txt env call w ver :
  run env = (inr call, w) ->
  version_txt env = inr ver ->
  (version call = [] <-> forallb Py_UNICODE_ISSPACE ver = true).
Proof using Type.
  intros Hrun Hver.
  destruct (run_inr _ _ _ Hrun)
    as (v & ver' & std & _ & _ & _ & Hver' & _ & _ & _ & _ & _ & _ & Hversion & _).
  assert (ver' = ver) as -> by congruence.
  rewrite Hversion. unfold strip. split.
  - intros Hempty. apply (f_equal (@rev char)) in Hempty.
    rewrite rev_involutive in Hempty. simpl in Hempty.
    apply lstrip_all_space in Hempty. rewrite forallb_reverse in Hempty.
    destruct (lstrip_decompose Py_UNICODE_ISSPACE ver) as (pre & Hs & Hpre & _).
    rewrite Hs, forallb_app, Hpre, Hempty. done.
  - intros Hblank. apply lstrip_all_space in Hblank. by rewrite Hblank.
Qed.

(** X9: indexing the parsed version at 0 never fails: the choice of the
    standard raises nothing but the ValueError of a component of the
    version, and otherwise yields c++14 or c++17. *)
Theorem choose_std_outcomes v :
  choose_std v <> inl IndexError
  /\ (forall e, choose_std v = inl e ->
        exists s, s ∈ split 46 v
          /\ int Py_UNICODE_TODECIMAL int_max_str_digits s = None
          /\ e = ValueError s)
  /\ (forall std, choose_std v = inr std ->
        std = py "c++14" \/ std = py "c++17").
Proof using Type.
  split; [| split].
  - intros Hidx. by apply choose_std_inl in Hidx as (s & _ & _ & Hs).
  - apply choose_std_inl.
  - intros std Hstd.
    apply choose_std_inr in Hstd as (first & rest & major & _ & _ & ->).
    destruct (major <? 11)%Z; [by left | by right].
Qed.

Lemma split_app sep a b :
  split sep (a ++ sep :: b) = split sep a ++ split sep b.
Proof using Type.
  induction a as [| c a IH]; simpl.
  - by rewrite N.eqb_refl.
  - destruct (c =? sep); [by rewrite IH |]. rewrite IH.
    pose proof (split_not_nil sep a). by destruct (split sep a).
Qed.

Lemma int_empty : int Py_UNICODE_TODECIMAL int_max_str_digits [] = None.
Proof using Type. reflexivity. Qed.

(** X10: a version with an empty component (a leading dot, a trailing dot or
    two dots in a row) is never accepted: the choice of the standard raises
    ValueError. *)
Theorem empty_component_raises_ValueError v a b :
  v = 46 :: a \/ v = a ++ [46] \/ v = a ++ 46 :: 46 :: b ->
  [] ∈ split 46 v /\ exists s, choose_std v = inl (ValueError s).
Proof using Type.
  intros Hv.
  assert (Hin : [] ∈ split 46 v).
  { destruct Hv as [-> | [-> | ->]].
    - simpl. apply list_elem_of_here.
    - rewrite split_app. apply elem_of_app. right. apply list_elem_of_here.
    - rewrite split_app. apply elem_of_app. right. simpl.
      apply list_elem_of_here. }
  split; [done |].
  destruct (choose_std_fails v [] Hin int_empty) as [e He].
  destruct (choose_std_inl _ _ He) as (s & _ & _ & ->).
  by exists s.
Qed.

(** X11: the suffix of the release name and the parsed version are two views
    of one string: the version without its dots is the concatenation of its
    dot-separated components, no component contains a dot, and there is
    one component more than there are dots. *)
Theorem release_suffix_joins_components v :
  replace 46 [] v = concat (split 46 v)
  /\ Forall (fun s => 46 ∉ s) (split 46 v)
  /\ length (split 46 v) = S (count_occ N.eq_dec v 46)
  /\ 46 ∉ replace 46 [] v.
Proof using Type.
  split; [| split; [| split]].
  - induction v as [| c v IH]; [done |].
    unfold replace in *. cbn [flat_map split].
    destruct (c =? 46) eqn:Hc; [by rewrite IH |].
    rewrite IH. pose proof (split_not_nil 46 v).
    by destruct (split 46 v).
  - induction v as [| c v IH]; simpl.
    + constructor; [apply not_elem_of_nil | constructor].
    + destruct (c =? 46) eqn:Hc.
      * constructor; [apply not_elem_of_nil | done].
      * pose proof (split_not_nil 46 v).
        destruct (split 46 v) as [| w ws]; [done |].
        apply Forall_cons in IH as [Hw Hws]. constructor; [| done].
        apply not_elem_of_cons. split; [| done].
        intros <-. by rewrite N.eqb_refl in Hc.
  - induction v as [| c v IH]; [done |]. simpl.
    destruct (N.eq_dec c 46) as [-> | Hc].
    + simpl. by rewrite IH.
    + apply N.eqb_neq in Hc. rewrite Hc.
      pose proof (split_not_nil 46 v).
      destruct (split 46 v); [done |]. exact IH.
  - rewrite replace_dots_filter. unfold without_dots.
    intros Hin. apply list_elem_of_In, filter_In in Hin as [_ Hin].
    by rewrite N.eqb_refl in Hin.
Qed.

(** X12: two versions get the same release name and the same cumm requirement
    exactly when they agree after their dots are dropped. *)
Theorem release_name_collision_iff v1 v2 :
  v1 <> [] -> v2 <> [] ->
  (release v1 = release v2 <-> without_dots v1 = without_dots v2).
Proof using Type.
  intros H1 H2. unfold release.
  destruct v1 as [| c1 v1]; [done |]. destruct v2 as [| c2 v2]; [done |].
  rewrite !replace_dots_filter. split.
  - intros [= Hname _]. exact Hname.
  - by intros ->.
Qed.

(** X13: in every run, finished or not, a reference held by a unit points to a
    unit constructed before it, and the references held by an extension
    point to units constructed before it: no reference dangles. *)
Theorem references_point_to_earlier_units env :
  let w := snd (run env) in
  (forall r c d, class_at w r = Some c -> d ∈ class_dependencies c ->
      (d < r)%nat /\ is_Some (class_at w d))
  /\ (forall e x d, heap w !! e = Some (Extension x) -> d ∈ ext_units x ->
      (d < e)%nat /\ is_Some (class_at w d)).
Proof using Type.
  cbv zeta. destruct (run env) as [[e | call] w] eqn:Hrun; cbn [snd].
  - destruct (run_inl _ _ _ Hrun)
      as [[Hheap _] | (_ & _ & _ & _ & _ & _ & _ & Hheap & _)];
      unfold class_at; rewrite Hheap; split.
    + intros r c d Hr. by destruct r.
    + intros r c d Hr. by destruct r.
    + intros r c d. heap_cases r; intros [= <-] Hd;
        by apply not_elem_of_empty in Hd.
    + intros r c d. heap_cases r.
  - destruct (run_inr _ _ _ Hrun)
      as (_ & _ & std & _ & _ & _ & _ & _ & _ & Hheap & _).
    unfold class_at. rewrite Hheap. split.
    + intros r c d. heap_cases r; intros [= <-] Hd; cbn in Hd; set_unfold;
        try done; destruct_or?; subst d; split; cbn; (lia || by eexists).
    + intros r x d. heap_cases r. intros [= <-] Hd. cbn in Hd.
      set_unfold. destruct_or?; try done; subst d; split; cbn;
        (lia || by eexists).
Qed.

(** X14: in a successful run a namespace is assigned to the two kernel units,
    the two tuners and the composite unit and to no other unit, and no two
    units are assigned the same namespace. *)
Theorem assigned_namespaces_distinct env call w :
  run env = (inr call, w) ->
  (forall r1 r2 ns, namespace_at w r1 = Some ns ->
      namespace_at w r2 = Some ns -> r1 = r2)
  /\ (forall r c, class_at w r = Some c ->
        (namespace_at w r = None <->
         c ∈ [SpconvOps; BoxOps; HashTable; CompileInfo; ExternalAllocator;
              PointCloudCompress; ExternalSpconvMatmul; InferenceOps])).
Proof using Type.
  intros Hrun.
  destruct (run_inr _ _ _ Hrun)
    as (_ & _ & std & _ & _ & _ & _ & _ & _ & Hheap & _).
  unfold namespace_at, class_at. rewrite Hheap. split.
  - intros r1 r2 ns. heap_cases r1; intros [= <-]; heap_cases r2;
      intros Heq; by vm_compute in Heq.
  - intros r c. heap_cases r; intros [= <-]; split; try done;
      try (intros _; solve [in_list]).
    all: intros Hin; exfalso; revert Hin; rewrite !elem_of_cons;
      intros Hin; repeat (destruct Hin as [Hin | Hin]; [done |]);
      by apply elem_of_nil in Hin.
Qed.

Lemma scan_digits_all_digits s : forall acc n,
  forallb is_digit s = true ->
  scan_digits false acc n s
  = Some (fold_left (fun a c => (10 * a + Z.of_N (c - 48))%Z) s acc,
          n + N.of_nat (length s), []).
Proof using Type.
  induction s as [| c s IH]; intros acc n Hs.
  - simpl. by rewrite N.add_0_r.
  - simpl in Hs. apply andb_true_iff in Hs as [Hc Hs].
    cbn [scan_digits]. unfold digit_value. unfold is_digit in Hc.
    rewrite Hc.
    assert ((c =? 95) = false) as ->.
    { apply N.eqb_neq. apply andb_true_iff in Hc as [_ Hc].
      apply N.leb_le in Hc. lia. }
    rewrite IH by done. cbn [fold_left length]. do 2 f_equal. f_equal. lia.
Qed.

Lemma int_digit_group s :
  digit_group s ->
  int Py_UNICODE_TODECIMAL int_max_str_digits s = Some (decimal_value s).
Proof using Type.
  intros (Hne & Hdigits & Hmax).
  destruct s as [| c s]; [done |].
  assert (Hmap : List.map (to_ascii Py_UNICODE_TODECIMAL) (c :: s) = c :: s).
  { clear Hne Hmax. induction (c :: s) as [| d l IH]; [done |].
    simpl in Hdigits. apply andb_true_iff in Hdigits as [Hd Hl].
    simpl. rewrite IH by done. f_equal. unfold to_ascii.
    unfold is_digit in Hd. apply andb_true_iff in Hd as [_ Hd].
    apply N.leb_le in Hd.
    assert ((d <? 127) = true) as -> by (apply N.ltb_lt; lia). done. }
  unfold int. rewrite Hmap.
  pose proof (scan_digits_all_digits (c :: s) 0%Z 0 Hdigits) as Hscan.
  simpl in Hdigits. apply andb_true_iff in Hdigits as [Hc _].
  unfold is_digit in Hc. apply andb_true_iff in Hc as [Hlo Hhi].
  apply N.leb_le in Hlo, Hhi.
  assert (Hcases : c = 48 \/ c = 49 \/ c = 50 \/ c = 51 \/ c = 52 \/ c = 53
                   \/ c = 54 \/ c = 55 \/ c = 56 \/ c = 57) by lia.
  assert (Hlen : (0 + N.of_nat (length (c :: s)) =? 0) = false).
  { apply N.eqb_neq. simpl. lia. }
  assert (Hlim : ((0 <? int_max_str_digits)
                  && (int_max_str_digits <? 0 + N.of_nat (length (c :: s))))
                 = false).
  { destruct Hmax as [-> | Hmax]; [done |].
    apply andb_false_iff. right. apply N.ltb_ge. lia. }
  assert (Hstrip : lstrip Py_ISSPACE (c :: s) = c :: s).
  { simpl. destruct_or!; subst c; reflexivity. }
  rewrite Hstrip.
  destruct_or!; subst c; cbv beta iota; unfold parse_unsigned;
    cbv beta iota; rewrite Hscan, Hlen, Hlim; reflexivity.
Qed.

(** X15: a version made of dot-separated groups of ASCII digits is accepted,
    and the standard is c++14 exactly when the number that its first group
    denotes is below 11. *)
Theorem digit_groups_accepted v :
  Forall digit_group (split 46 v) ->
  choose_std v =
    inr (if Z.ltb (decimal_value (hd [] (split 46 v))) 11
         then py "c++14" else py "c++17").
Proof using Type.
  intros Hall.
  assert (Hparse : exists std, choose_std v = inr std).
  { apply choose_std_parses. eapply Forall_impl; [exact Hall |].
    intros s Hs. by rewrite (int_digit_group s Hs). }
  destruct Hparse as [std Hstd]. rewrite Hstd.
  apply choose_std_inr in Hstd as (first & rest & major & Hsplit & Hint & ->).
  rewrite Hsplit in *. cbn [hd].
  apply Forall_cons in Hall as [Hfirst _].
  rewrite (int_digit_group first Hfirst) in Hint. by injection Hint as <-.
Qed.

End Manifest.

(** ** The properties at sample inputs *)

Lemma catalogue_is_tier_concatenation_witness :
  exists call w cu convcu,
    run [1; 2]%nat [3]%nat [4]%nat [5]%nat [true] [false] [] [true; true]
        ascii_digits_only 4300 sample_env = (inr call, w)
    /\ class_at w cu = Some (GemmMainUnitTest [1; 2; 3; 4; 5]%nat)
    /\ class_at w convcu = Some (ConvMainUnitTest [true; false; true; true]).
Proof.
  destruct (run [1; 2]%nat [3]%nat [4]%nat [5]%nat [true] [false] [] [true; true]
        ascii_digits_only 4300 sample_env) as [[e | call] w] eqn:Hrun;
    [by vm_compute in Hrun |].
  destruct (catalogue_is_tier_concatenation _ _ _ _ _ _ _ _ _ _ _ _ _ Hrun)
    as (e & x & cu & convcu & shuffle & imp & _ & _ & _ & _ & Hcu & Hconv
        & -> & -> & _).
  exists call, w, cu, convcu.
  split; [reflexivity |]. split; [exact Hcu | exact Hconv].
Defined.

Lemma unset_cuda_version_raises_RuntimeError_witness :
  environ sample_env_unset !! "CUMM_CUDA_VERSION"%string = None
  /\ run [1; 2]%nat [3]%nat [4]%nat [5]%nat [true] [false] [] [true; true]
        ascii_digits_only 4300 sample_env_unset =
       (inl (RuntimeError
               "CUMM_CUDA_VERSION must be set. e.g. export CUMM_CUDA_VERSION=11.8"),
        {| heap := []; written := [] |}).
Proof.
  split; [reflexivity |].
  apply (unset_cuda_version_raises_RuntimeError
           [1; 2]%nat [3]%nat [4]%nat [5]%nat [true] [false] [] [true; true]
           ascii_digits_only 4300 sample_env_unset
           {| heap := []; written := [] |}).
  left. reflexivity.
Defined.

Lemma single_extension_holds_all_units_witness :
  exists call w e x,
    run [1; 2]%nat [3]%nat [4]%nat [5]%nat [true] [false] [] [true; true]
        ascii_digits_only 4300 sample_env = (inr call, w)
    /\ ext_modules call = [e] /\ heap w !! e = Some (Extension x)
    /\ List.filter is_extension (heap w) = [Extension x]
    /\ ext_name x = py "spconv/core_cc"
    /\ length (ext_units x) = 13%nat.
Proof.
  destruct (run [1; 2]%nat [3]%nat [4]%nat [5]%nat [true] [false] [] [true; true]
        ascii_digits_only 4300 sample_env) as [[e | call] w] eqn:Hrun;
    [by vm_compute in Hrun |].
  destruct (single_extension_holds_all_units _ _ _ _ _ _ _ _ _ _ _ _ _ Hrun)
    as (e & x & He & Hx & Hone & Hname & Hlen & _).
  exists call, w, e, x. split; [reflexivity |].
  split; [exact He |]. split; [exact Hx |]. split; [exact Hone |].
  split; [exact Hname | exact Hlen].
Defined.

Lemma composition_is_deterministic_witness :
  exists call1 w1 call2 w2,
    run [1; 2]%nat [3]%nat [4]%nat [5]%nat [true] [false] [] [true; true]
        ascii_digits_only 4300 sample_env = (inr call1, w1)
    /\ run [1; 2]%nat [3]%nat [4]%nat [5]%nat [true] [false] [] [true; true]
        ascii_digits_only 4300 (with_README sample_env (inr (py "# spconv"))) = (inr call2, w2)
    /\ heap w1 = heap w2 /\ ext_modules call1 = ext_modules call2
    /\ namespace_at w1 4%nat = Some (py "csrc.sparse.convops.spops").
Proof.
  destruct (run [1; 2]%nat [3]%nat [4]%nat [5]%nat [true] [false] [] [true; true]
        ascii_digits_only 4300 sample_env) as [[e | call1] w1] eqn:Hrun1;
    [by vm_compute in Hrun1 |].
  destruct (run [1; 2]%nat [3]%nat [4]%nat [5]%nat [true] [false] [] [true; true]
        ascii_digits_only 4300 (with_README sample_env (inr (py "# spconv"))))
    as [[e | call2] w2] eqn:Hrun2; [by vm_compute in Hrun2 |].
  destruct (composition_is_deterministic _ _ _ _ _ _ _ _ _ _
              (fun _ => []) (fun _ => ∅) (fun _ => [])
              sample_env (with_README sample_env (inr (py "# spconv")))
              call1 w1 call2 w2 eq_refl eq_refl Hrun1 Hrun2)
    as (Hheap & Hext & _ & _ & _ & _ & _ & _ & _ & Hns & _).
  exists call1, w1, call2, w2. split; [reflexivity |].
  split; [reflexivity |]. split; [exact Hheap |].
  split; [exact Hext | exact Hns].
Defined.

Lemma tuners_built_from_full_catalogue_witness :
  exists call w gemmtuner convtuner cu convcu,
    run [1; 2]%nat [3]%nat [4]%nat [5]%nat [true] [false] [] [true; true]
        ascii_digits_only 4300 sample_env = (inr call, w)
    /\ class_at w gemmtuner = Some (GemmTunerSimple cu)
    /\ class_at w cu = Some (GemmMainUnitTest [1; 2; 3; 4; 5]%nat)
    /\ class_at w convtuner = Some (ConvTunerSimple convcu)
    /\ class_at w convcu = Some (ConvMainUnitTest [true; false; true; true]).
Proof.
  destruct (run [1; 2]%nat [3]%nat [4]%nat [5]%nat [true] [false] [] [true; true]
        ascii_digits_only 4300 sample_env) as [[e | call] w] eqn:Hrun;
    [by vm_compute in Hrun |].
  destruct (tuners_built_from_full_catalogue _ _ _ _ _ _ _ _ _ _ _ _ _ Hrun)
    as ((gemmtuner & convtuner & cu & convcu & Hg & Hcu & Hc & Hconvcu & _) & _).
  exists call, w, gemmtuner, convtuner, cu, convcu.
  split; [reflexivity |]. split; [exact Hg |]. split; [exact Hcu |].
  split; [exact Hc | exact Hconvcu].
Defined.

Lemma composite_namespace_scoped_with_constituents_witness :
  exists call w convops gemmtuner convtuner ns,
    run [1; 2]%nat [3]%nat [4]%nat [5]%nat [true] [false] [] [true; true]
        ascii_digits_only 4300 sample_env = (inr call, w)
    /\ class_at w convops = Some (ConvGemmOps gemmtuner convtuner)
    /\ namespace_at w convops = Some ns
    /\ scope_of ns = [py "csrc"; py "sparse"; py "convops"].
Proof.
  destruct (run [1; 2]%nat [3]%nat [4]%nat [5]%nat [true] [false] [] [true; true]
        ascii_digits_only 4300 sample_env) as [[e | call] w] eqn:Hrun;
    [by vm_compute in Hrun |].
  destruct (composite_namespace_scoped_with_constituents _ _ _ _ _ _ _ _ _ _ _ _ _ Hrun)
    as (convops & gemmtuner & convtuner & ns & ns_gemm & ns_conv & Hcls & _
        & Hns & _ & _ & _ & _ & _ & Hscope & _).
  exists call, w, convops, gemmtuner, convtuner, ns.
  split; [reflexivity |]. split; [exact Hcls |]. split; [exact Hns |].
  exact Hscope.
Defined.


Lemma release_name_and_requirement_witness :
  environ sample_env !! "CUMM_CUDA_VERSION"%string = Some (py "11.8")
  /\ py "11.8" <> []
  /\ release (py "11.8") =
       inr (py "spconv-cu118", [py "cumm-cu118>=0.7.11, <1.0.0"]).
Proof.
  assert (Hv : environ sample_env !! "CUMM_CUDA_VERSION"%string
               = Some (py "11.8")) by reflexivity.
  assert (Hne : py "11.8" <> []) by (by vm_compute).
  split; [done |]. split; [done |].
  exact (proj1 (release_name_and_requirement
                  [1; 2]%nat [3]%nat [4]%nat [5]%nat [true] [false] []
                  [true; true] ascii_digits_only 4300
                  sample_env (py "11.8") Hv Hne)).
Defined.

Lemma cxx_standard_from_cuda_version_witness :
  (exists call w e x,
      run [1; 2]%nat [3]%nat [4]%nat [5]%nat [true] [false] [] [true; true]
        ascii_digits_only 4300 sample_env_cuda10 = (inr call, w)
      /\ heap w !! e = Some (Extension x) /\ ext_std x = py "c++14")
  /\ (exists bad w,
        int ascii_digits_only 4300 (py "x") = None
        /\ files_ok sample_env_bad_version
        /\ run [1; 2]%nat [3]%nat [4]%nat [5]%nat [true] [false] [] [true; true]
        ascii_digits_only 4300 sample_env_bad_version = (inl (ValueError bad), w)
        /\ List.filter is_extension (heap w) = []).
Proof.
  split.
  - destruct (run [1; 2]%nat [3]%nat [4]%nat [5]%nat [true] [false] [] [true; true]
        ascii_digits_only 4300 sample_env_cuda10) as [[e | call] w] eqn:Hrun;
      [by vm_compute in Hrun |].
    assert (Hv : environ sample_env_cuda10 !! "CUMM_CUDA_VERSION"%string
                 = Some (py "10.2")) by reflexivity.
    assert (Hne : py "10.2" <> []) by (by vm_compute).
    destruct (proj1 (cxx_standard_from_cuda_version
                       [1; 2]%nat [3]%nat [4]%nat [5]%nat [true] [false] []
                       [true; true] ascii_digits_only 4300
                       sample_env_cuda10 (py "10.2") Hv Hne) call w Hrun)
      as (e & x & first & rest & major & _ & Hx & Hsplit & Hint & H14 & _).
    exists call, w, e, x. split; [reflexivity |]. split; [exact Hx |].
    apply H14. vm_compute in Hsplit. injection Hsplit as <- <-.
    vm_compute in Hint. injection Hint as <-. reflexivity.
  - assert (Hv : environ sample_env_bad_version !! "CUMM_CUDA_VERSION"%string
                 = Some (py "11.x")) by reflexivity.
    assert (Hne : py "11.x" <> []) by (by vm_compute).
    assert (Hs : py "x" ∈ split 46 (py "11.x")).
    { vm_compute. apply list_elem_of_further, list_elem_of_here. }
    assert (Hnone : int ascii_digits_only 4300 (py "x") = None)
      by reflexivity.
    assert (Hfiles : files_ok sample_env_bad_version).
    { split; [by left |]. split; [by eexists | done]. }
    destruct (proj2 (cxx_standard_from_cuda_version
                       [1; 2]%nat [3]%nat [4]%nat [5]%nat [true] [false] []
                       [true; true] ascii_digits_only 4300
                       sample_env_bad_version (py "11.x") Hv Hne)
                (py "x") Hs Hnone)
      as (bad & e & w & _ & _ & _ & Hrun & Hnoext & Hreach).
    destruct (Hreach Hfiles) as [-> _].
    exists bad, w. split; [exact Hnone |]. split; [exact Hfiles |].
    split; [exact Hrun | exact Hnoext].
Defined.

Lemma missing_README_falls_back_to_description_witness :
  README_md sample_env = inl FileNotFoundError
  /\ (exists call w,
        run [1; 2]%nat [3]%nat [4]%nat [5]%nat [true] [false] [] [true; true]
        ascii_digits_only 4300 sample_env = (inr call, w)
        /\ long_description call = py "spatial sparse convolution")
  /\ (exists call w,
        run [1; 2]%nat [3]%nat [4]%nat [5]%nat [true] [false] [] [true; true]
        ascii_digits_only 4300 sample_env_cuda10 = (inr call, w)
        /\ long_description call = 10 :: py "# spconv").
Proof.
  split; [reflexivity |]. split.
  - destruct (run [1; 2]%nat [3]%nat [4]%nat [5]%nat [true] [false] [] [true; true]
        ascii_digits_only 4300 sample_env) as [[e | call] w] eqn:Hrun;
      [by vm_compute in Hrun |].
    destruct (missing_README_falls_back_to_description
                [1; 2]%nat [3]%nat [4]%nat [5]%nat [true] [false] []
                [true; true] ascii_digits_only 4300 sample_env)
      as (_ & _ & Hcall & _).
    destruct (Hcall call w Hrun) as [Habsent _].
    exists call, w. split; [reflexivity |]. by apply Habsent.
  - destruct (run [1; 2]%nat [3]%nat [4]%nat [5]%nat [true] [false] [] [true; true]
        ascii_digits_only 4300 sample_env_cuda10) as [[e | call] w] eqn:Hrun;
      [by vm_compute in Hrun |].
    destruct (missing_README_falls_back_to_description
                [1; 2]%nat [3]%nat [4]%nat [5]%nat [true] [false] []
                [true; true] ascii_digits_only 4300 sample_env_cuda10)
      as (_ & _ & Hcall & _).
    destruct (Hcall call w Hrun) as [_ Hpresent].
    exists call, w. split; [reflexivity |]. by apply Hpresent.
Defined.

(** ** The further properties at sample inputs *)

Lemma run_succeeds_only_if_witness :
  exists call w,
    run [1; 2]%nat [3]%nat [4]%nat [5]%nat [true] [false] [] [true; true]
        ascii_digits_only 4300 sample_env = (inr call, w)
    /\ files_ok sample_env
    /\ Forall (fun s => int ascii_digits_only 4300 s <> None)
              (split 46 (py "11.8")).
Proof.
  destruct (run [1; 2]%nat [3]%nat [4]%nat [5]%nat [true] [false] [] [true; true]
        ascii_digits_only 4300 sample_env) as [[e | call] w] eqn:Hrun;
    [by vm_compute in Hrun |].
  destruct (run_succeeds_only_if _ _ _ _ _ _ _ _ _ _ _ _ _ Hrun)
    as (v & Hv & _ & Hfiles & Hall).
  injection Hv as <-.
  exists call, w. split; [reflexivity |]. split; [exact Hfiles | exact Hall].
Defined.

Lemma README_other_exception_propagates_witness :
  README_md sample_env_unreadable_README = inl PermissionError
  /\ run [1; 2]%nat [3]%nat [4]%nat [5]%nat [true] [false] [] [true; true]
        ascii_digits_only 4300 sample_env_unreadable_README
     = (inl PermissionError, {| heap := []; written := [] |}).
Proof.
  split; [reflexivity |].
  apply (README_other_exception_propagates [1; 2]%nat [3]%nat [4]%nat [5]%nat [true] [false] []
           [true; true] ascii_digits_only 4300
           sample_env_unreadable_README (py "11.8") PermissionError);
    [reflexivity | by vm_compute | reflexivity | discriminate].
Defined.

Lemma version_txt_exception_propagates_witness :
  version_txt sample_env_no_version_txt = inl FileNotFoundError
  /\ run [1; 2]%nat [3]%nat [4]%nat [5]%nat [true] [false] [] [true; true]
        ascii_digits_only 4300 sample_env_no_version_txt
     = (inl FileNotFoundError, {| heap := []; written := [] |}).
Proof.
  split; [reflexivity |].
  apply (version_txt_exception_propagates [1; 2]%nat [3]%nat [4]%nat [5]%nat [true] [false] []
           [true; true] ascii_digits_only 4300
           sample_env_no_version_txt (py "11.x") FileNotFoundError);
    [reflexivity | by vm_compute | by left | reflexivity].
Defined.

Lemma version_write_exception_propagates_witness :
  version_py_write sample_env_read_only = Some PermissionError
  /\ run [1; 2]%nat [3]%nat [4]%nat [5]%nat [true] [false] [] [true; true]
        ascii_digits_only 4300 sample_env_read_only
     = (inl PermissionError, {| heap := []; written := [] |}).
Proof.
  split; [reflexivity |].
  apply (version_write_exception_propagates [1; 2]%nat [3]%nat [4]%nat [5]%nat [true] [false] []
           [true; true] ascii_digits_only 4300
           sample_env_read_only (py "11.8") (py "2.3.6" ++ [10])
           PermissionError);
    [reflexivity | by vm_compute | by left | reflexivity | reflexivity].
Defined.

Lemma bad_version_found_after_version_written_witness :
  exists bad w,
    int ascii_digits_only 4300 (py "x") = None
    /\ run [1; 2]%nat [3]%nat [4]%nat [5]%nat [true] [false] [] [true; true]
        ascii_digits_only 4300 sample_env_bad_version = (inl (ValueError bad), w)
    /\ written w = [([py "spconv"; py "__version__.py"],
                     py "__version__ = '2.3.6'" ++ [10])].
Proof.
  destruct (bad_version_found_after_version_written [1; 2]%nat [3]%nat [4]%nat [5]%nat [true] [false] []
           [true; true] ascii_digits_only 4300
              sample_env_bad_version (py "11.x") (py "2.3.6" ++ [10]) (py "x"))
    as (bad & _ & _ & Hrun);
    [reflexivity | by vm_compute | by left | reflexivity | reflexivity
     | vm_compute; apply list_elem_of_further, list_elem_of_here
     | reflexivity |].
  eexists bad, _. split; [reflexivity |]. split; [exact Hrun |].
  reflexivity.
Defined.

Lemma version_module_written_first_witness :
  heap (snd (run [1; 2]%nat [3]%nat [4]%nat [5]%nat [true] [false] [] [true; true]
        ascii_digits_only 4300 sample_env)) <> []
  /\ written (snd (run [1; 2]%nat [3]%nat [4]%nat [5]%nat [true] [false] [] [true; true]
        ascii_digits_only 4300 sample_env)) <> [].
Proof.
  assert (Hheap : heap (snd (run [1; 2]%nat [3]%nat [4]%nat [5]%nat [true] [false] [] [true; true]
        ascii_digits_only 4300 sample_env)) <> []) by (by vm_compute).
  split; [exact Hheap |].
  exact (proj2 (version_module_written_first [1; 2]%nat [3]%nat [4]%nat [5]%nat [true] [false] []
           [true; true] ascii_digits_only 4300 sample_env) Hheap).
Defined.


Lemma empty_version_iff_blank_version_txt_witness :
  exists call w,
    run [1; 2]%nat [3]%nat [4]%nat [5]%nat [true] [false] [] [true; true]
        ascii_digits_only 4300 sample_env_blank_version = (inr call, w)
    /\ version_txt sample_env_blank_version = inr (py " " ++ [10])
    /\ version call = [].
Proof.
  destruct (run [1; 2]%nat [3]%nat [4]%nat [5]%nat [true] [false] [] [true; true]
        ascii_digits_only 4300 sample_env_blank_version) as [[e | call] w] eqn:Hrun;
    [by vm_compute in Hrun |].
  exists call, w. split; [reflexivity |]. split; [reflexivity |].
  apply (empty_version_iff_blank_version_txt [1; 2]%nat [3]%nat [4]%nat [5]%nat [true] [false] []
           [true; true] ascii_digits_only 4300
           sample_env_blank_version call w (py " " ++ [10]) Hrun eq_refl).
  reflexivity.
Defined.

Lemma choose_std_outcomes_witness :
  choose_std ascii_digits_only 4300 (py "11.x") = inl (ValueError (py "x"))
  /\ exists s, s ∈ split 46 (py "11.x")
       /\ int ascii_digits_only 4300 s = None
       /\ ValueError (py "x") = ValueError s.
Proof.
  assert (H : choose_std ascii_digits_only 4300 (py "11.x")
              = inl (ValueError (py "x"))) by reflexivity.
  split; [exact H |].
  exact (proj1 (proj2 (choose_std_outcomes ascii_digits_only 4300 (py "11.x")))
           _ H).
Defined.

Lemma empty_component_raises_ValueError_witness :
  py "11." = py "11" ++ [46]
  /\ exists s, choose_std ascii_digits_only 4300 (py "11.") = inl (ValueError s).
Proof.
  assert (H : py "11." = py "11" ++ [46]) by reflexivity.
  split; [exact H |].
  exact (proj2 (empty_component_raises_ValueError ascii_digits_only 4300
                  (py "11.") (py "11") [] (or_intror (or_introl H)))).
Defined.

Lemma release_name_collision_iff_witness :
  py "11.8" <> [] /\ py "1.18" <> []
  /\ without_dots (py "11.8") = without_dots (py "1.18")
  /\ release (py "11.8") = release (py "1.18").
Proof.
  assert (H1 : py "11.8" <> []) by (by vm_compute).
  assert (H2 : py "1.18" <> []) by (by vm_compute).
  assert (H : without_dots (py "11.8") = without_dots (py "1.18"))
    by reflexivity.
  split; [exact H1 |]. split; [exact H2 |]. split; [exact H |].
  exact (proj2 (release_name_collision_iff (py "11.8") (py "1.18") H1 H2) H).
Defined.

Lemma references_point_to_earlier_units_witness :
  class_at (snd (run [1; 2]%nat [3]%nat [4]%nat [5]%nat [true] [false] [] [true; true]
        ascii_digits_only 4300 sample_env)) 4%nat = Some (ConvGemmOps 2%nat 3%nat)
  /\ (3 < 4)%nat /\ is_Some (class_at (snd (run [1; 2]%nat [3]%nat [4]%nat [5]%nat [true] [false] [] [true; true]
        ascii_digits_only 4300 sample_env)) 3%nat).
Proof.
  assert (H : class_at (snd (run [1; 2]%nat [3]%nat [4]%nat [5]%nat [true] [false] [] [true; true]
        ascii_digits_only 4300 sample_env)) 4%nat
              = Some (ConvGemmOps 2%nat 3%nat)) by reflexivity.
  split; [exact H |].
  apply (proj1 (references_point_to_earlier_units [1; 2]%nat [3]%nat [4]%nat [5]%nat [true] [false] []
           [true; true] ascii_digits_only 4300 sample_env)
           4%nat (ConvGemmOps 2%nat 3%nat) 3%nat H).
  apply elem_of_union. right. by apply elem_of_singleton.
Defined.

Lemma assigned_namespaces_distinct_witness :
  exists call w,
    run [1; 2]%nat [3]%nat [4]%nat [5]%nat [true] [false] [] [true; true]
        ascii_digits_only 4300 sample_env = (inr call, w)
    /\ class_at w 5%nat = Some SpconvOps
    /\ namespace_at w 5%nat = None.
Proof.
  destruct (run [1; 2]%nat [3]%nat [4]%nat [5]%nat [true] [false] [] [true; true]
        ascii_digits_only 4300 sample_env) as [[e | call] w] eqn:Hrun;
    [by vm_compute in Hrun |].
  assert (Hcls : class_at w 5%nat = Some SpconvOps).
  { vm_compute in Hrun. injection Hrun as _ <-. reflexivity. }
  exists call, w. split; [reflexivity |]. split; [exact Hcls |].
  apply (proj2 (assigned_namespaces_distinct _ _ _ _ _ _ _ _ _ _ _ _ _ Hrun)
           5%nat SpconvOps Hcls).
  apply list_elem_of_here.
Defined.

Lemma digit_groups_accepted_witness :
  Forall (digit_group 4300) (split 46 (py "10.2"))
  /\ choose_std ascii_digits_only 4300 (py "10.2") = inr (py "c++14").
Proof.
  assert (H : Forall (digit_group 4300) (split 46 (py "10.2"))).
  { change (split 46 (py "10.2")) with [py "10"; py "2"].
    repeat apply Forall_cons_2; [| | apply Forall_nil_2].
    all: split; [by vm_compute |]; split; [reflexivity |].
    all: right; by vm_compute. }
  split; [exact H |].
  exact (digit_groups_accepted ascii_digits_only 4300 (py "10.2") H).
Defined.

(** ** Evaluations of the model *)

Example split_example :
  split 46 (py "a.b..c") = [py "a"; py "b"; py ""; py "c"]
  /\ split 46 (py "") = [py ""] /\ split 46 (py ".") = [py ""; py ""].
Proof. repeat split; reflexivity. Qed.

Example replace_example : replace 46 [] (py "11.8") = py "118".
Proof. reflexivity. Qed.

Example int_examples :
  let int := int (fun _ => None) 4300 in
  int (py "11") = Some 11%Z /\ int (py " 11 ") = Some 11%Z
  /\ int (py "+11") = Some 11%Z /\ int (py "-5") = Some (-5)%Z
  /\ int (py "1_1") = Some 11%Z /\ int (py "_1") = None
  /\ int (py "1_") = None /\ int (py "1__1") = None /\ int (py "") = None
  /\ int (py "+") = None /\ int (py "+ 1") = None /\ int (py "1 1") = None
  /\ int (py "--1") = None /\ int (py "0011") = Some 11%Z
  /\ int [28; 49] = None /\ int [133; 49] = Some 1%Z
  /\ int [11; 49; 12] = Some 1%Z /\ int [49; 0] = None.
Proof. cbv zeta. repeat split; vm_compute; reflexivity. Qed.

Example run_cuda_11_8 :
  exists call w,
    run [1; 2]%nat [3]%nat [4]%nat [5]%nat [true] [false] [] [true; true]
        ascii_digits_only 4300 sample_env = (inr call, w)
    /\ name call = py "spconv-cu118"
    /\ version call = py "2.3.6"
    /\ List.last (install_requires call) [] = py "cumm-cu118>=0.7.11, <1.0.0"
    /\ heap w !! 13%nat
       = Some (Extension
                 {| ext_units := [2; 3; 4; 5; 6; 7; 8; 9; 10; 11; 12; 0; 1]%nat;
                    ext_name := py "spconv/core_cc";
                    ext_out_dir := [py "spconv"];
                    ext_std := py "c++17";
                    ext_disable_pch := true;
                    ext_verbose := true |})
    /\ written w = [([py "spconv"; py "__version__.py"],
                     py "__version__ = '2.3.6'" ++ [10])].
Proof. eexists _, _. split; [by vm_compute |]. by vm_compute. Qed.

(** An uncaught exception of an earlier statement comes first: without
    version.txt the script stops at line 63, before the version is
    parsed. *)
Example run_without_version_txt :
  run [1; 2]%nat [3]%nat [4]%nat [5]%nat [true] [false] [] [true; true]
        ascii_digits_only 4300 sample_env_no_version_txt
  = (inl FileNotFoundError, {| heap := []; written := [] |}).
Proof. by vm_compute. Qed.

Example specification_example_resolves :
  Composition.register_all [unit_B; unit_A] [] = inr [unit_B; unit_A]
  /\ Composition.resolve [unit_B; unit_A] = inr [unit_A; unit_B]
  /\ Composition.resolve [unit_A; unit_B] = inr [unit_A; unit_B]
  /\ Composition.register unit_C [unit_A; unit_B] = inl Composition.DuplicateSymbolError.
Proof. repeat split; by vm_compute. Qed.

(** A dependency on a unit that is not registered is no edge and holds
    nothing up; units that wait for each other are reported as a cycle. *)
Example resolve_edge_cases :
  Composition.resolve [] = inr []
  /\ Composition.resolve [unit_B] = inr [unit_B]
  /\ Composition.resolve [unit_A; unit_P; unit_Q]
     = inl Composition.CyclicDependencyError.
Proof. repeat split; by vm_compute. Qed.
